(** * Docker Network Mapper: the browser client [static/js/app.js]

    A shallow embedding of the client's event handlers, and the
    properties of its snapshot reconciliation, availability gating,
    polling timer and push-channel handling.

    The client is a single-threaded event-driven program over a handful
    of module-level variables and DOM elements.  Every handler is
    embedded as a computation in a state-and-exception monad over
    [state]; an [await] splits a function into the part run before the
    suspension and the part resumed with the result.

    The page is taken to contain the elements the script looks up
    ([noDataOverlay], [connectionStatus], [containerList] and the four
    statistics), and payloads to be JSON objects whose containers and
    connections, when present, have string fields. *)

From Stdlib Require Import ZArith String Ascii List Lia.
From stdpp Require Import base option list gmap strings fin_maps.

Open Scope string_scope.
Open Scope list_scope.

(** ** JavaScript values found in payload fields *)

Inductive jsval :=
| JUndefined
| JNull
| JBool (b : bool)
| JNum (z : Z)
| JStr (s : string).

(** ToBoolean *)
Definition truthy (v : jsval) : bool :=
  match v with
  | JUndefined | JNull => false
  | JBool b => b
  | JNum z => negb (z =? 0)%Z
  | JStr s => negb (s =? "")%string
  end.

(** [v !== false] *)
Definition strict_ne_false (v : jsval) : bool :=
  match v with
  | JBool false => false
  | _ => true
  end.

(** [a || b] *)
Definition js_or (a b : jsval) : jsval := if truthy a then a else b.

(** ** Payloads

    [containers], [connections] and [summary] are [None] when the field
    is missing from the JSON object ([undefined] in the code).  A JSON
    object used as a mapping is a [gmap]: its keys are pairwise
    distinct, and [Object.entries] enumerates it as [map_to_list]. *)

Record container := mkContainer {
  c_name : string;
  c_image : string;
  c_status : string
}.

Record connection := mkConnection {
  conn_id : string;
  conn_source : string;
  conn_target : string;
  conn_network : string
}.

Record summary_t := mkSummary {
  total_containers : jsval;
  running_containers : jsval;
  total_networks : jsval;
  total_connections : jsval
}.

Record payload := mkPayload {
  docker_available : jsval;
  error : jsval;
  containers : option (gmap string container);
  connections : option (list connection);
  summary : option summary_t
}.

(** ** What is handed to the render surface *)

Record palette := mkPalette { background : string; border : string }.

Record node := mkNode {
  node_id : string;
  node_label : string;
  node_color : palette;
  node_shape : string
}.

Record edge := mkEdge {
  edge_id : string;
  edge_from : string;
  edge_to : string;
  edge_label : string;
  edge_arrows : string
}.

Definition success_palette : palette :=
  {| background := "#dcfce7"; border := "#16a34a" |}.
Definition failure_palette : palette :=
  {| background := "#fecaca"; border := "#dc2626" |}.

Definition nl : string := String (ascii_of_nat 10) "".

(** The arrow function mapped over [Object.entries(data.containers)]. *)
Definition node_of (id : string) (c : container) : node :=
  let isRunning := (c_status c =? "running")%string in
  {| node_id := id;
     node_label :=
       "📦 " +:+ c_name c +:+ nl +:+
       "🆔 " +:+ substring 0 8 id +:+ nl +:+
       (if isRunning then "🟢" else "🔴") +:+ " " +:+ c_status c;
     node_color := if isRunning then success_palette else failure_palette;
     node_shape := "box" |}.

(** The arrow function mapped over [data.connections]. *)
Definition edge_of (conn : connection) : edge :=
  {| edge_id := conn_id conn;
     edge_from := conn_source conn;
     edge_to := conn_target conn;
     edge_label := " " +:+ conn_network conn +:+ " ";
     edge_arrows := "to" |}.

(** ** Program state *)

(** Operations performed on the two [vis.DataSet]s, one entry per item. *)
Inductive op :=
| RemoveNode (id : string)
| RemoveEdge (id : string)
| AddNode (n : node)
| AddEdge (e : edge).

(** Callbacks handed to [setTimeout]. *)
Inductive callback :=
| FitView          (* () => network.fit({ animation: true }) *)
| Reconnect.   (* connectWebSocket *)

Record list_item := mkItem {
  item_running : bool;
  item_name : string;
  item_short_id : string;
  item_image : string
}.

(** Content of the [containerList] element. *)
Inductive list_view :=
| Placeholder
| Items (l : list list_item).

Record stat_numbers := mkStats {
  statContainers : jsval;
  statRunning : jsval;
  statNetworks : jsval;
  statConnections : jsval
}.

Record status_view := mkStatusView {
  indicator_class : string;
  status_text : string
}.

Record state := mkState {
  allNodes : gmap string node;          (* vis.DataSet, keyed by id *)
  allEdges : gmap string edge;          (* vis.DataSet, keyed by id *)
  dockerAvailable : bool;
  noDataOverlay : bool;                 (* the overlay carries class [show] *)
  connectionStatus : status_view;
  statNumbers : stat_numbers;
  containerList : list_view;
  console : list jsval;                 (* console.error('Error:', _) *)
  timeouts : list (Z * callback);           (* pending setTimeout calls *)
  requests : nat;                       (* GET /api/network-data issued *)
  sockets : nat;                        (* WebSocket objects constructed *)
  fits : nat;                           (* network.fit calls *)
  trace : list op                       (* DataSet operations so far *)
}.

Definition set_allNodes (v : gmap string node) (st : state) : state :=
  mkState v (allEdges st) (dockerAvailable st) (noDataOverlay st)
    (connectionStatus st) (statNumbers st) (containerList st) (console st)
    (timeouts st) (requests st) (sockets st) (fits st) (trace st).
Definition set_allEdges (v : gmap string edge) (st : state) : state :=
  mkState (allNodes st) v (dockerAvailable st) (noDataOverlay st)
    (connectionStatus st) (statNumbers st) (containerList st) (console st)
    (timeouts st) (requests st) (sockets st) (fits st) (trace st).
Definition set_dockerAvailable (v : bool) (st : state) : state :=
  mkState (allNodes st) (allEdges st) v (noDataOverlay st)
    (connectionStatus st) (statNumbers st) (containerList st) (console st)
    (timeouts st) (requests st) (sockets st) (fits st) (trace st).
Definition set_noDataOverlay (v : bool) (st : state) : state :=
  mkState (allNodes st) (allEdges st) (dockerAvailable st) v
    (connectionStatus st) (statNumbers st) (containerList st) (console st)
    (timeouts st) (requests st) (sockets st) (fits st) (trace st).
Definition set_connectionStatus (v : status_view) (st : state) : state :=
  mkState (allNodes st) (allEdges st) (dockerAvailable st) (noDataOverlay st)
    v (statNumbers st) (containerList st) (console st)
    (timeouts st) (requests st) (sockets st) (fits st) (trace st).
Definition set_statNumbers (v : stat_numbers) (st : state) : state :=
  mkState (allNodes st) (allEdges st) (dockerAvailable st) (noDataOverlay st)
    (connectionStatus st) v (containerList st) (console st)
    (timeouts st) (requests st) (sockets st) (fits st) (trace st).
Definition set_containerList (v : list_view) (st : state) : state :=
  mkState (allNodes st) (allEdges st) (dockerAvailable st) (noDataOverlay st)
    (connectionStatus st) (statNumbers st) v (console st)
    (timeouts st) (requests st) (sockets st) (fits st) (trace st).
Definition set_console (v : list jsval) (st : state) : state :=
  mkState (allNodes st) (allEdges st) (dockerAvailable st) (noDataOverlay st)
    (connectionStatus st) (statNumbers st) (containerList st) v
    (timeouts st) (requests st) (sockets st) (fits st) (trace st).
Definition set_timeouts (v : list (Z * callback)) (st : state) : state :=
  mkState (allNodes st) (allEdges st) (dockerAvailable st) (noDataOverlay st)
    (connectionStatus st) (statNumbers st) (containerList st) (console st)
    v (requests st) (sockets st) (fits st) (trace st).
Definition set_requests (v : nat) (st : state) : state :=
  mkState (allNodes st) (allEdges st) (dockerAvailable st) (noDataOverlay st)
    (connectionStatus st) (statNumbers st) (containerList st) (console st)
    (timeouts st) v (sockets st) (fits st) (trace st).
Definition set_sockets (v : nat) (st : state) : state :=
  mkState (allNodes st) (allEdges st) (dockerAvailable st) (noDataOverlay st)
    (connectionStatus st) (statNumbers st) (containerList st) (console st)
    (timeouts st) (requests st) v (fits st) (trace st).
Definition set_fits (v : nat) (st : state) : state :=
  mkState (allNodes st) (allEdges st) (dockerAvailable st) (noDataOverlay st)
    (connectionStatus st) (statNumbers st) (containerList st) (console st)
    (timeouts st) (requests st) (sockets st) v (trace st).
Definition set_trace (v : list op) (st : state) : state :=
  mkState (allNodes st) (allEdges st) (dockerAvailable st) (noDataOverlay st)
    (connectionStatus st) (statNumbers st) (containerList st) (console st)
    (timeouts st) (requests st) (sockets st) (fits st) v.

(** ** The monad of handlers: state, and exceptions that may escape *)

Inductive exn :=
| TypeError                  (* property access or Object.entries on undefined *)
| DuplicateId (id : string)  (* DataSet: item with this id already exists *)
| Rejected.                  (* the promise of axios.get rejected *)

Inductive outcome (A : Type) :=
| Done (a : A)
| Throw (e : exn).
Arguments Done {A} a.
Arguments Throw {A} e.

Definition M (A : Type) : Type := state -> state * outcome A.

Definition ret {A} (a : A) : M A := fun st => (st, Done a).
Definition throw {A} (e : exn) : M A := fun st => (st, Throw e).
Definition bind {A B} (m : M A) (k : A -> M B) : M B :=
  fun st =>
    match m st with
    | (st', Done a) => k a st'
    | (st', Throw e) => (st', Throw e)
    end.
Definition try_catch {A} (m : M A) (handler : exn -> M A) : M A :=
  fun st =>
    match m st with
    | (st', Done a) => (st', Done a)
    | (st', Throw e) => handler e st'
    end.
Definition gets {A} (f : state -> A) : M A := fun st => (st, Done (f st)).
Definition modify (f : state -> state) : M unit := fun st => (f st, Done tt).

Notation "'let!' x ':=' m 'in' k" := (bind m (fun x => k))
  (at level 10, x name, m at level 100, k at level 200).
Notation "m1 >> m2" := (bind m1 (fun _ => m2))
  (at level 90, right associativity).

Definition when (b : bool) (m : M unit) : M unit := if b then m else ret tt.

(** ** vis.DataSet

    The rendering library is an external collaborator; the two methods
    the client calls are embedded by their contract.  [clear()] removes
    every item.  [add(items)] inserts the items one by one in array
    order and throws at the first item whose id is already present,
    keeping the items inserted before it. *)

Fixpoint ds_add {A} (key : A -> string) (items : list A) (ds : gmap string A)
  : gmap string A * list A * option exn :=
  match items with
  | [] => (ds, [], None)
  | it :: rest =>
    match ds !! key it with
    | Some _ => (ds, [], Some (DuplicateId (key it)))
    | None =>
      let '(ds', added, r) := ds_add key rest (<[key it := it]> ds) in
      (ds', it :: added, r)
    end
  end.

Definition ds_keys {A} (ds : gmap string A) : list string :=
  (map_to_list ds).*1.

Definition allNodes_clear : M unit :=
  modify (fun st =>
    set_trace (trace st ++ (RemoveNode <$> ds_keys (allNodes st)))
      (set_allNodes ∅ st)).

Definition allEdges_clear : M unit :=
  modify (fun st =>
    set_trace (trace st ++ (RemoveEdge <$> ds_keys (allEdges st)))
      (set_allEdges ∅ st)).

Definition allNodes_add (nodes : list node) : M unit :=
  fun st =>
    let '(ds', added, r) := ds_add node_id nodes (allNodes st) in
    (set_trace (trace st ++ (AddNode <$> added)) (set_allNodes ds' st),
     match r with None => Done tt | Some e => Throw e end).

Definition allEdges_add (edges : list edge) : M unit :=
  fun st =>
    let '(ds', added, r) := ds_add edge_id edges (allEdges st) in
    (set_trace (trace st ++ (AddEdge <$> added)) (set_allEdges ds' st),
     match r with None => Done tt | Some e => Throw e end).

(** ** Built-ins *)

(** [Object.entries(o)] and [Object.keys(o)] throw on [undefined]. *)
Definition Object_entries {A} (o : option (gmap string A)) : M (list (string * A)) :=
  match o with
  | None => throw TypeError
  | Some m => ret (map_to_list m)
  end.

(** [a.map(f)] throws when [a] is [undefined]. *)
Definition Array_map {A B} (f : A -> B) (a : option (list A)) : M (list B) :=
  match a with
  | None => throw TypeError
  | Some l => ret (f <$> l)
  end.

Definition setTimeout (t : callback) (delay : Z) : M unit :=
  modify (fun st => set_timeouts (timeouts st ++ [(delay, t)]) st).

(** ** The functions of [app.js] *)

Definition showError (message : jsval) : M unit :=
  modify (fun st => set_console (console st ++ [message]) st).

Definition showNoDataOverlay : M unit := modify (set_noDataOverlay true).
Definition hideNoDataOverlay : M unit := modify (set_noDataOverlay false).

Definition updateUIForDockerStatus : M unit :=
  let! available := gets dockerAvailable in
  if available then modify (set_noDataOverlay false)
  else modify (set_noDataOverlay true).

Definition updateVisualization (data : payload) : M unit :=
  let! entries := Object_entries (containers data) in
  let nodes := (fun '(id, c) => node_of id c) <$> entries in
  let! edges := Array_map edge_of (connections data) in
  allNodes_clear >>
  allEdges_clear >>
  when (0 <? length nodes)%nat (allNodes_add nodes) >>
  when (0 <? length edges)%nat (allEdges_add edges) >>
  when (0 <? length nodes)%nat (setTimeout FitView 500).

Definition updateSummary (summary : option summary_t) : M unit :=
  match summary with
  | None => throw TypeError
  | Some s =>
    modify (set_statNumbers
      {| statContainers := js_or (total_containers s) (JNum 0);
         statRunning := js_or (running_containers s) (JNum 0);
         statNetworks := js_or (total_networks s) (JNum 0);
         statConnections := js_or (total_connections s) (JNum 0) |})
  end.

Definition item_of (id : string) (c : container) : list_item :=
  {| item_running := (c_status c =? "running")%string;
     item_name := c_name c;
     item_short_id := substring 0 12 id;
     item_image := c_image c |}.

Definition updateContainerList (containers : option (gmap string container)) : M unit :=
  let! entries := Object_entries containers in
  if (length entries =? 0)%nat then modify (set_containerList Placeholder)
  else modify (set_containerList (Items ((fun '(id, c) => item_of id c) <$> entries))).

(** [loadData] up to its [await]: the GET request is issued. *)
Definition loadData : M unit :=
  modify (fun st => set_requests (S (requests st)) st).

(** [loadData] resumed: [Some data] is [response.data] of a completed
    request, [None] a rejected one. *)
Definition loadData_resume (response : option payload) : M unit :=
  try_catch
    (match response with
     | None => throw Rejected
     | Some data =>
       modify (set_dockerAvailable (strict_ne_false (docker_available data))) >>
       updateUIForDockerStatus >>
       let! available := gets dockerAvailable in
       if available && negb (truthy (error data)) then
         updateVisualization data >>
         updateSummary (summary data) >>
         updateContainerList (containers data) >>
         hideNoDataOverlay
       else
         showError (js_or (error data) (JStr "Docker недоступен")) >>
         showNoDataOverlay
     end)
    (fun _ =>
       showError (JStr "Ошибка подключения") >>
       showNoDataOverlay).

Definition updateConnectionStatus (connected : bool) : M unit :=
  modify (set_connectionStatus
    {| indicator_class := "status-indicator " +:+ (if connected then "connected" else "");
       status_text := if connected then "Подключено" else "Отключено" |}).

Definition connectWebSocket : M unit :=
  modify (fun st => set_sockets (S (sockets st)) st).

Definition ws_onopen : M unit := updateConnectionStatus true.

(** [data] is [JSON.parse(event.data)]. *)
Definition ws_onmessage (data : payload) : M unit :=
  modify (set_dockerAvailable (strict_ne_false (docker_available data))) >>
  updateUIForDockerStatus >>
  let! available := gets dockerAvailable in
  if available && negb (truthy (error data)) then
    updateVisualization data >>
    updateSummary (summary data) >>
    updateContainerList (containers data) >>
    hideNoDataOverlay
  else ret tt.

Definition ws_onclose : M unit :=
  updateConnectionStatus false >>
  setTimeout Reconnect 5000.

Definition ws_onerror : M unit := updateConnectionStatus false.

(** The callback of [setInterval(_, 30000)]. *)
Definition interval_tick : M unit :=
  let! available := gets dockerAvailable in
  if available then loadData else ret tt.

Definition run_callback (t : callback) : M unit :=
  match t with
  | FitView => modify (fun st => set_fits (S (fits st)) st)
  | Reconnect => connectWebSocket
  end.

(** The [DOMContentLoaded] listener. *)
Definition DOMContentLoaded : M unit :=
  modify (set_allNodes ∅) >>
  modify (set_allEdges ∅) >>
  loadData >>
  connectWebSocket.

(** ** The event loop *)

Inductive event :=
| EvLoaded
| EvTick
| EvReload
| EvPullResponse (data : payload)
| EvPullFailure
| EvWsOpen
| EvWsMessage (data : payload)
| EvWsClose
| EvWsError
| EvTimeout (t : callback).

Definition handle (ev : event) : M unit :=
  match ev with
  | EvLoaded => DOMContentLoaded
  | EvTick => interval_tick
  | EvReload => loadData
  | EvPullResponse data => loadData_resume (Some data)
  | EvPullFailure => loadData_resume None
  | EvWsOpen => ws_onopen
  | EvWsMessage data => ws_onmessage data
  | EvWsClose => ws_onclose
  | EvWsError => ws_onerror
  | EvTimeout t => run_callback t
  end.

(** An exception escaping a handler ends that handler only. *)
Definition step (st : state) (ev : event) : state := fst (handle ev st).
Definition run (evs : list event) (st : state) : state := fold_left step evs st.

(** The values of the module-level variables and of the page when the
    script has been evaluated. *)
Definition initial : state :=
  {| allNodes := ∅; allEdges := ∅;
     dockerAvailable := false;
     noDataOverlay := false;
     connectionStatus := {| indicator_class := "status-indicator"; status_text := "" |};
     statNumbers := mkStats (JNum 0) (JNum 0) (JNum 0) (JNum 0);
     containerList := Placeholder;
     console := [];
     timeouts := [];
     requests := 0;
     sockets := 0;
     fits := 0;
     trace := [] |}.

(** ** Reading a payload *)

(** The test guarding reconciliation on both the pull and the push path:
    [docker_available !== false && !error]. *)
Definition available (data : payload) : bool :=
  strict_ne_false (docker_available data) && negb (truthy (error data)).

Definition keyed {A} (key : A -> string) (items : list A) : list (string * A) :=
  (fun it => (key it, it)) <$> items.

Definition nodes_list (cs : gmap string container) : list node :=
  (fun '(id, c) => node_of id c) <$> map_to_list cs.

Definition nodes_of (cs : gmap string container) : gmap string node :=
  map_imap (fun id c => Some (node_of id c)) cs.

Definition edges_of (es : list connection) : gmap string edge :=
  list_to_map ((fun c => (conn_id c, edge_of c)) <$> es).

(** Closed form of [updateVisualization] on a payload that carries both
    collections (see [updateVisualization_closed_form]). *)
Definition reconcile (cs : gmap string container) (es : list connection)
    (st : state) : state * outcome unit :=
  let '(eds, added, r) := ds_add edge_id (edge_of <$> es) ∅ in
  (mkState (nodes_of cs) eds (dockerAvailable st) (noDataOverlay st)
     (connectionStatus st) (statNumbers st) (containerList st) (console st)
     (timeouts st ++
        match r with
        | None => if decide (cs = ∅) then [] else [(500%Z, FitView)]
        | Some _ => []
        end)
     (requests st) (sockets st) (fits st)
     (trace st ++ (RemoveNode <$> ds_keys (allNodes st)) ++
        (RemoveEdge <$> ds_keys (allEdges st)) ++
        (AddNode <$> nodes_list cs) ++ (AddEdge <$> added)),
   match r with None => Done tt | Some e => Throw e end).

(** The DataSet operations performed by one call of
    [updateVisualization], and the ids they touch. *)
Definition delta_of (data : payload) (st : state) : list op :=
  drop (length (trace st)) (trace (fst (updateVisualization data st))).

Definition touched_nodes (delta : list op) : list string :=
  omap (fun o => match o with
                 | RemoveNode id => Some id
                 | AddNode n => Some (node_id n)
                 | _ => None
                 end) delta.

Definition touched_edges (delta : list op) : list string :=
  omap (fun o => match o with
                 | RemoveEdge id => Some id
                 | AddEdge e => Some (edge_id e)
                 | _ => None
                 end) delta.

(** The Mirror: the contents of the two DataSets. *)
Definition mirror (st : state) : gmap string node * gmap string edge :=
  (allNodes st, allEdges st).

(** A computation leaves the observation [f] of the state alone. *)
Definition keeps {A X} (f : state -> X) (m : M A) : Prop :=
  forall st, f (fst (m st)) = f st.

(** ** Statements of the specification that are checked against the code *)

(** Diff minimality as the specification words it: a reconciliation
    touches exactly the entries that differ between the Mirror and the
    snapshot. *)
Definition minimal_diff (data : payload) (st : state) : Prop :=
  forall cs es,
    containers data = Some cs -> connections data = Some es ->
    (forall id, id ∈ touched_nodes (delta_of data st) <->
                allNodes st !! id <> nodes_of cs !! id) /\
    (forall id, id ∈ touched_edges (delta_of data st) <->
                allEdges st !! id <> edges_of es !! id).

(** Fit-to-view as the specification words it: no fit is scheduled by a
    reconciliation from a non-empty Mirror to a non-empty Mirror. *)
Definition fit_only_on_first_population : Prop :=
  forall data st,
    allNodes st <> ∅ ->
    allNodes (fst (updateVisualization data st)) <> ∅ ->
    timeouts (fst (updateVisualization data st)) = timeouts st.

(** Wholesale replacement as the specification words it, for every
    available payload that carries both collections: an empty containers
    mapping leaves the Mirror empty, and the edges are as many as the
    connections. *)
Definition empty_containers_empty_mirror : Prop :=
  forall data es st,
    available data = true ->
    containers data = Some ∅ -> connections data = Some es ->
    mirror (fst (updateVisualization data st)) = (∅, ∅).

Definition edges_are_the_connections : Prop :=
  forall data cs es st,
    available data = true ->
    containers data = Some cs -> connections data = Some es ->
    size (allEdges (fst (updateVisualization data st))) = length es.

(** Scheduler gating as the specification words it: after a pull
    response that is classified as unavailable, a tick of the
    timer issues no request. *)
Definition timer_follows_classification : Prop :=
  forall data st,
    available data = false ->
    requests (step (step st (EvPullResponse data)) EvTick) =
    requests (step st (EvPullResponse data)).

(** Safe defaults as the specification words it: processing a payload
    never raises, whichever optional fields are missing. *)
Definition total_on_partial_snapshots : Prop :=
  forall data st,
    snd (updateVisualization data st) = Done tt /\
    snd (updateSummary (summary data) st) = Done tt.

(** Push-channel loss as the specification words it: the close handler
    and the error handler each schedule a reconnect 5 seconds later. *)
Definition reconnect_scheduled_on (ev : event) : Prop :=
  forall st, timeouts (step st ev) = timeouts st ++ [(5000%Z, Reconnect)].

(** Events of the push channel's life cycle. *)
Definition channel_event (ev : event) : bool :=
  match ev with
  | EvWsOpen | EvWsClose | EvWsError | EvTimeout Reconnect => true
  | _ => false
  end.

(** ** Sample data *)

Definition ex_web : container := mkContainer "web" "nginx:latest" "running".
Definition ex_db : container := mkContainer "db" "postgres:16" "exited".

Definition ex_containers : gmap string container :=
  <["3f2a9c41d07b" := ex_web]> (<["b81e55f0a6c2" := ex_db]> ∅).

Definition ex_link : connection :=
  mkConnection "3f2a9c41d07b-b81e55f0a6c2-app-net" "3f2a9c41d07b" "b81e55f0a6c2" "app-net".

Definition ex_summary : summary_t :=
  mkSummary (JNum 2) (JNum 1) (JNum 1) (JNum 1).

Definition ex_snapshot : payload :=
  mkPayload (JBool true) JNull (Some ex_containers) (Some [ex_link]) (Some ex_summary).

(** A push message that reports an error without declaring Docker
    unavailable. *)
Definition ex_daemon_down : payload :=
  mkPayload (JBool true) (JStr "daemon down") None None None.

(** An available payload without a [containers] field. *)
Definition ex_partial : payload :=
  mkPayload (JBool true) JUndefined None (Some [])
    (Some (mkSummary JUndefined JUndefined JUndefined JUndefined)).

(** An available payload with a connection and no container. *)
Definition ex_link_only : payload :=
  mkPayload (JBool true) JNull (Some ∅) (Some [ex_link]) (Some ex_summary).

(** An available payload in which a connection id occurs twice. *)
Definition ex_link_twice : payload :=
  mkPayload (JBool true) JNull (Some ex_containers) (Some [ex_link; ex_link])
    (Some ex_summary).

(** The state once the page has loaded and the first pull has returned
    [ex_snapshot]. *)
Definition ex_loaded : state := run [EvLoaded; EvPullResponse ex_snapshot] initial.

(** ** Observations on runs of the event loop *)

(** Every node of the Mirror is the rendering of a container under its
    own id, and every edge the rendering of a connection under its id. *)
Definition rendered (st : state) : Prop :=
  (forall id n, allNodes st !! id = Some n -> exists c, n = node_of id c) /\
  (forall id e, allEdges st !! id = Some e ->
                exists conn, e = edge_of conn /\ conn_id conn = id).

(** Events that carry no payload and are not a user's reload. *)
Definition quiet_event (ev : event) : bool :=
  match ev with
  | EvTick | EvPullFailure | EvWsOpen | EvWsClose | EvWsError | EvTimeout _ => true
  | _ => false
  end.

Fixpoint count_events (p : event -> bool) (evs : list event) : nat :=
  match evs with
  | [] => 0
  | ev :: rest => (if p ev then 1 else 0) + count_events p rest
  end.

Definition is_close (ev : event) : bool :=
  match ev with EvWsClose => true | _ => false end.

Definition opens_socket (ev : event) : bool :=
  match ev with EvLoaded | EvTimeout Reconnect => true | _ => false end.

Definition is_reconnect (t : Z * callback) : bool :=
  match t with (_, Reconnect) => true | _ => false end.

(** The [setTimeout] calls made while [evs] are handled from [st]. *)
Definition scheduled_by (evs : list event) (st : state) : list (Z * callback) :=
  drop (length (timeouts st)) (timeouts (run evs st)).

(** ** The controls of the page

    The remaining functions of [app.js] work on variables and elements
    of their own: the physics switch of the network, the help dialog,
    the view buttons and the two exports.  [network] is [None] until
    [initNetwork] has constructed the [vis.Network]; it then holds the
    network's [physics.enabled] option.  [active] is the set of
    elements that carry the class [active], [view_btns] the elements
    matched by [.view-btn]. *)

Record download := mkDownload {
  dl_content : jsval;       (* the single part of the Blob *)
  dl_type : string;         (* the Blob's type *)
  dl_filename : string;     (* a.download *)
  dl_href : nat             (* a.href, an object URL *)
}.

Record controls := mkControls {
  physicsEnabled : bool;
  network : option bool;
  helpModal : bool;             (* the dialog carries class [show] *)
  view_btns : gset string;
  active : gset string;
  console_log : list string;    (* console.log *)
  export_requests : list string;  (* GET requests of the exports *)
  downloads : list download;    (* clicks on a download anchor *)
  object_urls : gset nat;       (* object URLs created and not revoked *)
  next_url : nat
}.

Definition set_physicsEnabled (v : bool) (ui : controls) : controls :=
  mkControls v (network ui) (helpModal ui) (view_btns ui) (active ui)
    (console_log ui) (export_requests ui) (downloads ui) (object_urls ui) (next_url ui).
Definition set_network (v : option bool) (ui : controls) : controls :=
  mkControls (physicsEnabled ui) v (helpModal ui) (view_btns ui) (active ui)
    (console_log ui) (export_requests ui) (downloads ui) (object_urls ui) (next_url ui).
Definition set_helpModal (v : bool) (ui : controls) : controls :=
  mkControls (physicsEnabled ui) (network ui) v (view_btns ui) (active ui)
    (console_log ui) (export_requests ui) (downloads ui) (object_urls ui) (next_url ui).
Definition set_active (v : gset string) (ui : controls) : controls :=
  mkControls (physicsEnabled ui) (network ui) (helpModal ui) (view_btns ui) v
    (console_log ui) (export_requests ui) (downloads ui) (object_urls ui) (next_url ui).
Definition set_console_log (v : list string) (ui : controls) : controls :=
  mkControls (physicsEnabled ui) (network ui) (helpModal ui) (view_btns ui) (active ui)
    v (export_requests ui) (downloads ui) (object_urls ui) (next_url ui).
Definition set_export_requests (v : list string) (ui : controls) : controls :=
  mkControls (physicsEnabled ui) (network ui) (helpModal ui) (view_btns ui) (active ui)
    (console_log ui) v (downloads ui) (object_urls ui) (next_url ui).
Definition set_downloads (v : list download) (ui : controls) : controls :=
  mkControls (physicsEnabled ui) (network ui) (helpModal ui) (view_btns ui) (active ui)
    (console_log ui) (export_requests ui) v (object_urls ui) (next_url ui).
Definition set_object_urls (v : gset nat) (ui : controls) : controls :=
  mkControls (physicsEnabled ui) (network ui) (helpModal ui) (view_btns ui) (active ui)
    (console_log ui) (export_requests ui) (downloads ui) v (next_url ui).
Definition set_next_url (v : nat) (ui : controls) : controls :=
  mkControls (physicsEnabled ui) (network ui) (helpModal ui) (view_btns ui) (active ui)
    (console_log ui) (export_requests ui) (downloads ui) (object_urls ui) v.

(** [new vis.Network(_, _, { ..., physics: { enabled: physicsEnabled } })] *)
Definition initNetwork (ui : controls) : controls :=
  set_network (Some (physicsEnabled ui)) ui.

(** The variable is flipped first; [network.setOptions] then throws
    when [network] is still [undefined]. *)
Definition togglePhysics (ui : controls) : controls * outcome unit :=
  let ui1 := set_physicsEnabled (negb (physicsEnabled ui)) ui in
  match network ui1 with
  | None => (ui1, Throw TypeError)
  | Some _ => (set_network (Some (physicsEnabled ui1)) ui1, Done tt)
  end.

Definition showHelp (ui : controls) : controls := set_helpModal true ui.
Definition closeHelp (ui : controls) : controls := set_helpModal false ui.

(** [target] is [event.target] of the global [event]; [None] when no
    event is being dispatched.  The parameter [view] is not used by the
    body. *)
Definition setView (view : string) (target : option string) (ui : controls)
  : controls * outcome unit :=
  let ui1 := set_active (active ui ∖ view_btns ui) ui in
  match target with
  | None => (ui1, Throw TypeError)
  | Some t => (set_active (active ui1 ∪ {[t]}) ui1, Done tt)
  end.

(** [type] defaults to ['success']. *)
Definition showNotification (message : string) (type : option string)
    (ui : controls) : controls :=
  let type := default "success" type in
  set_console_log (console_log ui ++ [type +:+ ": " +:+ message]) ui.

Definition downloadFile (content : jsval) (filename type : string)
    (ui : controls) : controls :=
  let url := next_url ui in
  (* window.URL.createObjectURL(blob) *)
  let ui1 := set_next_url (S url) (set_object_urls (object_urls ui ∪ {[url]}) ui) in
  (* a.href = url; a.download = filename; a.click() *)
  let ui2 := set_downloads (downloads ui1 ++ [mkDownload content type filename url]) ui1 in
  (* window.URL.revokeObjectURL(url) *)
  set_object_urls (object_urls ui2 ∖ {[url]}) ui2.

(** The exports up to their [await]. *)
Definition exportPlantUML (ui : controls) : controls :=
  set_export_requests (export_requests ui ++ ["/api/plantuml"]) ui.
Definition exportJSON (ui : controls) : controls :=
  set_export_requests (export_requests ui ++ ["/api/export/json"]) ui.

(** [exportPlantUML] resumed: [None] is a rejected request, [Some None]
    a response whose [data] is [undefined], [Some (Some v)] a response
    whose [data.plantuml] is [v]. *)
Definition exportPlantUML_resume (response : option (option jsval))
    (ui : controls) : controls :=
  match response with
  | Some (Some plantuml) =>
    showNotification "PlantUML экспортирован!" None
      (downloadFile plantuml "docker-network.puml" "text/plain" ui)
  | _ => showNotification "Ошибка экспорта" (Some "error") ui
  end.

(** [exportJSON] resumed; [stringify] is [JSON.stringify(_, null, 2)],
    [None] a rejected request. *)
Definition exportJSON_resume (stringify : payload -> string)
    (response : option payload) (ui : controls) : controls :=
  match response with
  | Some data =>
    showNotification "JSON экспортирован!" None
      (downloadFile (JStr (stringify data)) "docker-network.json" "application/json" ui)
  | None => showNotification "Ошибка экспорта" (Some "error") ui
  end.

Inductive control :=
| UiTogglePhysics
| UiShowHelp
| UiCloseHelp
| UiSetView (view : string) (target : option string)
| UiExportPlantUML
| UiExportPlantUMLDone (response : option (option jsval))
| UiExportJSON
| UiExportJSONDone (response : option payload).

Definition press (stringify : payload -> string) (ui : controls) (c : control)
  : controls :=
  match c with
  | UiTogglePhysics => fst (togglePhysics ui)
  | UiShowHelp => showHelp ui
  | UiCloseHelp => closeHelp ui
  | UiSetView view target => fst (setView view target ui)
  | UiExportPlantUML => exportPlantUML ui
  | UiExportPlantUMLDone response => exportPlantUML_resume response ui
  | UiExportJSON => exportJSON ui
  | UiExportJSONDone response => exportJSON_resume stringify response ui
  end.

Definition presses (stringify : payload -> string) (cs : list control)
    (ui : controls) : controls :=
  fold_left (press stringify) cs ui.

Definition is_toggle (c : control) : bool :=
  match c with UiTogglePhysics => true | _ => false end.

Definition is_export_done (c : control) : bool :=
  match c with
  | UiExportPlantUMLDone _ | UiExportJSONDone _ => true
  | _ => false
  end.

Definition export_succeeds (c : control) : bool :=
  match c with
  | UiExportPlantUMLDone (Some (Some _)) | UiExportJSONDone (Some _) => true
  | _ => false
  end.

Fixpoint count_controls (p : control -> bool) (cs : list control) : nat :=
  match cs with
  | [] => 0
  | c :: rest => (if p c then 1 else 0) + count_controls p rest
  end.

(** The two kinds of file an export hands to the browser. *)
Definition export_file (d : download) : Prop :=
  (dl_filename d = "docker-network.puml" /\ dl_type d = "text/plain") \/
  (dl_filename d = "docker-network.json" /\ dl_type d = "application/json").

(** The page's controls when the script has been evaluated. *)
Definition controls_initial (btns : gset string) (act : gset string) : controls :=
  {| physicsEnabled := true; network := None; helpModal := false;
     view_btns := btns; active := act;
     console_log := ["🐳 Docker Network Mapper запущен!"];
     export_requests := []; downloads := [];
     object_urls := ∅; next_url := 0 |}.

(** ** Facts about [ds_add] *)

Section DataSet.
Context {A : Type} (key : A -> string).

Lemma keyed_fst items : (keyed key items).*1 = key <$> items.
Proof. unfold keyed. by rewrite <- list_fmap_compose. Qed.

Lemma ds_add_fresh items : forall ds,
  NoDup (key <$> items) ->
  (forall it, it ∈ items -> ds !! key it = None) ->
  ds_add key items ds = (list_to_map (keyed key items) ∪ ds, items, None).
Proof.
  induction items as [|it rest IH]; intros ds Hnd Hfresh; simpl.
  - by rewrite (left_id_L ∅ (∪)).
  - apply NoDup_cons in Hnd as [Hnotin Hnd].
    rewrite (Hfresh it) by left.
    rewrite IH; [| done |].
    + f_equal. f_equal.
      rewrite <- insert_union_r, insert_union_l; [done|].
      apply not_elem_of_list_to_map_1. by rewrite keyed_fst.
    + intros it' Hin. rewrite lookup_insert_ne; [apply Hfresh; by right|].
      intros Heq. apply Hnotin. rewrite Heq. by apply list_elem_of_fmap_2.
Qed.

End DataSet.

Lemma nodes_list_ids cs : node_id <$> nodes_list cs = (map_to_list cs).*1.
Proof.
  unfold nodes_list. rewrite <- list_fmap_compose.
  apply list_fmap_ext. by intros i [id c].
Qed.

Lemma nodes_list_to_map cs : list_to_map (keyed node_id (nodes_list cs)) = nodes_of cs.
Proof.
  apply map_eq; intros i. apply option_eq; intros n.
  rewrite <- elem_of_list_to_map
    by (rewrite keyed_fst, nodes_list_ids; apply NoDup_fst_map_to_list).
  unfold keyed, nodes_list, nodes_of. rewrite map_lookup_imap.
  rewrite <- list_fmap_compose, list_elem_of_fmap. split.
  - intros [[id c] [Heq Hin]]. simpl in Heq. injection Heq as -> ->.
    apply elem_of_map_to_list in Hin. by rewrite Hin.
  - destruct (cs !! i) as [c|] eqn:Hc; simpl; [|done].
    intros [= <-]. exists (i, c). split; [done|]. by apply elem_of_map_to_list.
Qed.

Lemma nodes_of_lookup cs id : nodes_of cs !! id = node_of id <$> cs !! id.
Proof. unfold nodes_of. rewrite map_lookup_imap. by destruct (cs !! id). Qed.

Lemma ds_add_nodes cs :
  ds_add node_id (nodes_list cs) ∅ = (nodes_of cs, nodes_list cs, None).
Proof.
  rewrite ds_add_fresh.
  - by rewrite (right_id_L ∅ (∪)), nodes_list_to_map.
  - rewrite nodes_list_ids. apply NoDup_fst_map_to_list.
  - intros. apply lookup_empty.
Qed.

Lemma ds_add_edges es :
  NoDup (conn_id <$> es) ->
  ds_add edge_id (edge_of <$> es) ∅ = (edges_of es, edge_of <$> es, None).
Proof.
  intros Hnd. rewrite ds_add_fresh.
  - rewrite (right_id_L ∅ (∪)). unfold edges_of, keyed.
    by rewrite <- list_fmap_compose.
  - by rewrite <- list_fmap_compose.
  - intros. apply lookup_empty.
Qed.

Lemma nodes_list_nil cs : nodes_list cs = [] <-> cs = ∅.
Proof.
  unfold nodes_list. rewrite <- map_to_list_empty_iff. split.
  - apply fmap_nil_inv.
  - by intros ->.
Qed.

Lemma updateVisualization_closed_form data cs es st :
  containers data = Some cs -> connections data = Some es ->
  updateVisualization data st = reconcile cs es st.
Proof.
  intros Hcs Hes. destruct st.
  unfold updateVisualization, reconcile, bind, when, Object_entries, Array_map.
  rewrite Hcs, Hes. unfold ret at 1 2.
  fold (nodes_list cs).
  unfold allNodes_clear, allEdges_clear, modify, set_trace, set_allNodes, set_allEdges.
  cbn [allNodes allEdges dockerAvailable noDataOverlay connectionStatus
       statNumbers containerList console timeouts requests sockets fits trace].
  assert (Hnodes : forall st0, allNodes st0 = ∅ ->
            (if (0 <? length (nodes_list cs))%nat
             then allNodes_add (nodes_list cs) else ret ()) st0 =
            (set_trace (trace st0 ++ (AddNode <$> nodes_list cs))
               (set_allNodes (nodes_of cs) st0), Done ())).
  { intros st0 Hst0. destruct st0; simpl in Hst0; subst.
    destruct (nodes_list cs) eqn:Hn.
    - apply nodes_list_nil in Hn as ->. simpl.
      unfold ret, set_trace, set_allNodes, nodes_of; simpl.
      by rewrite app_nil_r, map_imap_empty.
    - rewrite <- Hn. replace (0 <? length (nodes_list cs))%nat with true
        by (by rewrite Hn).
      unfold allNodes_add; simpl. by rewrite ds_add_nodes. }
  rewrite Hnodes by done.
  unfold set_trace, set_allNodes.
  cbn [allNodes allEdges dockerAvailable noDataOverlay connectionStatus
       statNumbers containerList console timeouts requests sockets fits trace].
  assert (Hfit : (0 <? length (nodes_list cs))%nat = if decide (cs = ∅) then false else true).
  { case_decide as Hc.
    - by apply nodes_list_nil in Hc as ->.
    - destruct (nodes_list cs) eqn:Hn; [by apply nodes_list_nil in Hn|done]. }
  rewrite Hfit.
  destruct es as [|c es].
  - simpl. unfold ret, setTimeout, modify, set_timeouts. case_decide; simpl;
      by rewrite ?app_nil_r, <- ?app_assoc.
  - replace (0 <? length (edge_of <$> c :: es))%nat with true by done.
    unfold allEdges_add.
    cbn [allNodes allEdges dockerAvailable noDataOverlay connectionStatus
       statNumbers containerList console timeouts requests sockets fits trace].
    destruct (ds_add edge_id (edge_of <$> c :: es) ∅) as [[eds added] r].
    unfold set_trace, set_allEdges.
    cbn [allNodes allEdges dockerAvailable noDataOverlay connectionStatus
       statNumbers containerList console timeouts requests sockets fits trace].
    destruct r as [e|].
    + by rewrite app_nil_r, <- !app_assoc.
    + unfold ret, setTimeout, modify, set_timeouts. case_decide; simpl;
        by rewrite ?app_nil_r, <- ?app_assoc.
Qed.

(** ** Reconciliation *)

Lemma delta_of_closed_form data cs es st :
  containers data = Some cs -> connections data = Some es ->
  delta_of data st =
    (RemoveNode <$> ds_keys (allNodes st)) ++
    (RemoveEdge <$> ds_keys (allEdges st)) ++
    (AddNode <$> nodes_list cs) ++
    (AddEdge <$> (ds_add edge_id (edge_of <$> es) ∅).1.2).
Proof.
  intros Hcs Hes. unfold delta_of.
  rewrite (updateVisualization_closed_form _ _ _ _ Hcs Hes). unfold reconcile.
  destruct (ds_add edge_id (edge_of <$> es) ∅) as [[eds added] r]; simpl.
  by rewrite drop_app_length.
Qed.


(** C9: every container of a reconciled snapshot is rendered as a node whose
    label is the composition of the name, the first 8 characters of the id and
    the status icon with the status text, and whose colour is the success
    palette exactly when the status is [running] and the failure palette for
    every other status. *)
Theorem node_attributes_from_container data cs es id c st :
  containers data = Some cs -> connections data = Some es ->
  cs !! id = Some c ->
  exists n,
    allNodes (fst (updateVisualization data st)) !! id = Some n /\
    node_id n = id /\
    node_label n =
      "📦 " +:+ c_name c +:+ nl +:+
      "🆔 " +:+ substring 0 8 id +:+ nl +:+
      (if decide (c_status c = "running") then "🟢" else "🔴") +:+
      " " +:+ c_status c /\
    (node_color n = success_palette <-> c_status c = "running") /\
    (c_status c <> "running" -> node_color n = failure_palette).
Proof.
  intros Hcs Hes Hc. exists (node_of id c).
  rewrite (updateVisualization_closed_form _ _ _ _ Hcs Hes). unfold reconcile.
  destruct (ds_add edge_id (edge_of <$> es) ∅) as [[eds added] r]; simpl.
  rewrite nodes_of_lookup, Hc. split; [done|]. split; [done|].
  destruct (String.eqb_spec (c_status c) "running") as [Heq|Hne].
  - rewrite decide_True by done. repeat split; try done.
  - rewrite decide_False by done. repeat split; try done.
Qed.

Lemma node_attributes_from_container_witness :
  exists n,
    allNodes (fst (updateVisualization ex_snapshot initial)) !! "b81e55f0a6c2" = Some n /\
    node_id n = "b81e55f0a6c2" /\
    node_label n =
      "📦 " +:+ "db" +:+ nl +:+
      "🆔 " +:+ substring 0 8 "b81e55f0a6c2" +:+ nl +:+
      (if decide (c_status ex_db = "running") then "🟢" else "🔴") +:+
      " " +:+ "exited" /\
    (node_color n = success_palette <-> c_status ex_db = "running") /\
    (c_status ex_db <> "running" -> node_color n = failure_palette).
Proof.
  apply (node_attributes_from_container ex_snapshot ex_containers [ex_link]
           "b81e55f0a6c2" ex_db initial); reflexivity.
Defined.

Lemma node_of_in_nodes_list cs id c :
  cs !! id = Some c -> node_of id c ∈ nodes_list cs.
Proof.
  intros Hc. unfold nodes_list. apply list_elem_of_fmap.
  exists (id, c). split; [done|]. by apply elem_of_map_to_list.
Qed.




(** ** Handlers and the Mirror *)

Section Frame.
Context {X : Type} (f : state -> X).

Lemma keeps_step_bind {A B} (m : M A) (k : A -> M B) st :
  (forall a, keeps f (k a)) ->
  f (fst (bind m k st)) = f (fst (m st)).
Proof.
  intros Hk. unfold bind. destruct (m st) as [st' [a|e]]; simpl; [apply Hk|done].
Qed.

Lemma keeps_step_try_catch {A} (m : M A) (h : exn -> M A) st :
  (forall e, keeps f (h e)) ->
  f (fst (try_catch m h st)) = f (fst (m st)).
Proof.
  intros Hh. unfold try_catch.
  destruct (m st) as [st' [a|e]]; simpl; [done|apply Hh].
Qed.

Lemma keeps_bind {A B} (m : M A) (k : A -> M B) :
  keeps f m -> (forall a, keeps f (k a)) -> keeps f (bind m k).
Proof. intros Hm Hk st. rewrite keeps_step_bind by done. apply Hm. Qed.

Lemma keeps_try_catch {A} (m : M A) (h : exn -> M A) :
  keeps f m -> (forall e, keeps f (h e)) -> keeps f (try_catch m h).
Proof. intros Hm Hh st. rewrite keeps_step_try_catch by done. apply Hm. Qed.

Lemma keeps_ret {A} (a : A) : keeps f (ret a).
Proof. done. Qed.

Lemma keeps_throw {A} e : keeps f (@throw A e).
Proof. done. Qed.
End Frame.

Lemma keeps_mirror_updateSummary s : keeps mirror (updateSummary s).
Proof. intros st. by destruct s. Qed.

Lemma keeps_mirror_updateContainerList cs : keeps mirror (updateContainerList cs).
Proof.
  intros st. destruct cs as [cs|]; [|done].
  unfold updateContainerList, bind; simpl. by destruct (length _ =? 0)%nat.
Qed.

Lemma keeps_mirror_after_visualization data :
  keeps mirror (updateSummary (summary data) >>
                updateContainerList (containers data) >> hideNoDataOverlay).
Proof.
  apply keeps_bind; [apply keeps_mirror_updateSummary|intros _].
  apply keeps_bind; [apply keeps_mirror_updateContainerList|intros _].
  done.
Qed.

Lemma keeps_mirror_on_failure :
  keeps mirror (showError (JStr "Ошибка подключения") >> showNoDataOverlay).
Proof. done. Qed.

(** Both paths start by recording [docker_available !== false] and
    letting the overlay follow it. *)
Lemma guard_eq data (k1 k2 : M unit) st :
  (modify (set_dockerAvailable (strict_ne_false (docker_available data))) >>
   updateUIForDockerStatus >>
   let! available := gets dockerAvailable in
   if available && negb (truthy (error data)) then k1 else k2) st =
  (if available data then k1 else k2)
    (set_noDataOverlay (negb (strict_ne_false (docker_available data)))
       (set_dockerAvailable (strict_ne_false (docker_available data)) st)).
Proof.
  unfold available, bind, modify, updateUIForDockerStatus, gets; simpl.
  by destruct (strict_ne_false (docker_available data)).
Qed.

Lemma ws_onmessage_guard data st :
  ws_onmessage data st =
  (if available data then
     updateVisualization data >>
     updateSummary (summary data) >>
     updateContainerList (containers data) >>
     hideNoDataOverlay
   else ret tt)
    (set_noDataOverlay (negb (strict_ne_false (docker_available data)))
       (set_dockerAvailable (strict_ne_false (docker_available data)) st)).
Proof. unfold ws_onmessage. apply guard_eq. Qed.

Lemma loadData_resume_guard data st :
  loadData_resume (Some data) st =
  try_catch
    (if available data then
       updateVisualization data >>
       updateSummary (summary data) >>
       updateContainerList (containers data) >>
       hideNoDataOverlay
     else
       showError (js_or (error data) (JStr "Docker недоступен")) >>
       showNoDataOverlay)
    (fun _ => showError (JStr "Ошибка подключения") >> showNoDataOverlay)
    (set_noDataOverlay (negb (strict_ne_false (docker_available data)))
       (set_dockerAvailable (strict_ne_false (docker_available data)) st)).
Proof. unfold loadData_resume, try_catch. by rewrite guard_eq. Qed.

Lemma mirror_updateVisualization_any data cs es st1 st2 :
  containers data = Some cs -> connections data = Some es ->
  mirror (fst (updateVisualization data st1)) =
  mirror (fst (updateVisualization data st2)).
Proof.
  intros Hcs Hes.
  rewrite !(updateVisualization_closed_form _ _ _ _ Hcs Hes). unfold reconcile.
  by destruct (ds_add edge_id (edge_of <$> es) ∅) as [[eds added] r].
Qed.

Lemma mirror_push_available data cs es st :
  containers data = Some cs -> connections data = Some es ->
  available data = true ->
  mirror (step st (EvWsMessage data)) = mirror (fst (updateVisualization data st)).
Proof.
  intros Hcs Hes Hav. unfold step, handle.
  rewrite ws_onmessage_guard, Hav.
  rewrite (keeps_step_bind mirror) by (intros _; apply keeps_mirror_after_visualization).
  by eapply mirror_updateVisualization_any.
Qed.

Lemma mirror_pull_available data cs es st :
  containers data = Some cs -> connections data = Some es ->
  available data = true ->
  mirror (step st (EvPullResponse data)) = mirror (fst (updateVisualization data st)).
Proof.
  intros Hcs Hes Hav. unfold step, handle.
  rewrite loadData_resume_guard, Hav.
  rewrite (keeps_step_try_catch mirror) by (intros _; apply keeps_mirror_on_failure).
  rewrite (keeps_step_bind mirror) by (intros _; apply keeps_mirror_after_visualization).
  by eapply mirror_updateVisualization_any.
Qed.

Lemma edges_of_size es : NoDup (conn_id <$> es) -> size (edges_of es) = length es.
Proof.
  intros Hnd. unfold edges_of. rewrite map_size_list_to_map.
  - by rewrite length_fmap.
  - by rewrite <- list_fmap_compose.
Qed.

Lemma nodes_of_size cs : size (nodes_of cs) = size cs.
Proof.
  rewrite <- !size_dom. f_equal. apply set_eq; intros id.
  rewrite !elem_of_dom, nodes_of_lookup. by rewrite fmap_is_Some.
Qed.

Lemma edges_of_lookup es conn :
  NoDup (conn_id <$> es) -> conn ∈ es ->
  edges_of es !! conn_id conn = Some (edge_of conn).
Proof.
  intros Hnd Hin. unfold edges_of. apply elem_of_list_to_map.
  - by rewrite <- list_fmap_compose.
  - apply list_elem_of_fmap. by exists conn.
Qed.

Lemma edges_of_lookup_inv es id e :
  NoDup (conn_id <$> es) -> edges_of es !! id = Some e ->
  exists conn, conn ∈ es /\ conn_id conn = id /\ e = edge_of conn.
Proof.
  intros Hnd Hid. unfold edges_of in Hid.
  apply elem_of_list_to_map in Hid; [|by rewrite <- list_fmap_compose].
  apply list_elem_of_fmap in Hid as [conn [[= -> ->] Hin]]. by exists conn.
Qed.

(** C4, as the code has it: applying a snapshot whose connection ids are
    pairwise distinct replaces the Mirror wholesale.  Whatever the Mirror held
    before, the call succeeds; the nodes are exactly one node per id of the
    containers mapping, with the label, palette and shape of that container;
    the edges are exactly the connections of the sequence, each stored under
    its id with its source, target, network label and arrow.  An empty
    containers mapping leaves no node, and leaves the Mirror empty when the
    connections sequence is empty too.  Applying the same snapshot a second
    time gives the same Mirror, and both the pull path and the push path leave
    this Mirror when the payload is available. *)
Theorem snapshot_replaces_mirror data cs es st :
  containers data = Some cs -> connections data = Some es ->
  NoDup (conn_id <$> es) ->
  let st' := fst (updateVisualization data st) in
  snd (updateVisualization data st) = Done tt /\
  (forall id,
     allNodes st' !! id =
     (fun c =>
        {| node_id := id;
           node_label :=
             "📦 " +:+ c_name c +:+ nl +:+
             "🆔 " +:+ substring 0 8 id +:+ nl +:+
             (if (c_status c =? "running")%string then "🟢" else "🔴") +:+
             " " +:+ c_status c;
           node_color :=
             if (c_status c =? "running")%string
             then {| background := "#dcfce7"; border := "#16a34a" |}
             else {| background := "#fecaca"; border := "#dc2626" |};
           node_shape := "box" |}) <$> cs !! id) /\
  size (allNodes st') = size cs /\
  (forall conn, conn ∈ es ->
     allEdges st' !! conn_id conn =
     Some {| edge_id := conn_id conn;
             edge_from := conn_source conn;
             edge_to := conn_target conn;
             edge_label := " " +:+ conn_network conn +:+ " ";
             edge_arrows := "to" |}) /\
  (forall id e, allEdges st' !! id = Some e ->
     exists conn,
       conn ∈ es /\ conn_id conn = id /\
       e = {| edge_id := conn_id conn;
              edge_from := conn_source conn;
              edge_to := conn_target conn;
              edge_label := " " +:+ conn_network conn +:+ " ";
              edge_arrows := "to" |}) /\
  size (allEdges st') = length es /\
  (cs = ∅ -> allNodes st' = ∅) /\
  (cs = ∅ -> es = [] -> mirror st' = (∅, ∅)) /\
  mirror (fst (updateVisualization data st')) = mirror st' /\
  (available data = true ->
   mirror (step st (EvPullResponse data)) = mirror st' /\
   mirror (step st (EvWsMessage data)) = mirror st').
Proof.
  intros Hcs Hes Hnd st'. subst st'.
  assert (Hmirror : mirror (fst (updateVisualization data st)) =
                    (nodes_of cs, edges_of es)).
  { rewrite (updateVisualization_closed_form _ _ _ _ Hcs Hes). unfold reconcile.
    by rewrite (ds_add_edges _ Hnd). }
  unfold mirror in Hmirror. injection Hmirror as Hnodes Hedges.
  split; [|split; [|split; [|split; [|split; [|split; [|split; [|split; [|split]]]]]]]].
  - rewrite (updateVisualization_closed_form _ _ _ _ Hcs Hes). unfold reconcile.
    by rewrite (ds_add_edges _ Hnd).
  - intros id. rewrite Hnodes. apply nodes_of_lookup.
  - rewrite Hnodes. apply nodes_of_size.
  - intros conn Hin. rewrite Hedges. by apply edges_of_lookup.
  - intros id e. rewrite Hedges. by apply edges_of_lookup_inv.
  - rewrite Hedges. by apply edges_of_size.
  - intros ->. rewrite Hnodes. unfold nodes_of. apply map_imap_empty.
  - intros -> ->. unfold mirror. rewrite Hnodes, Hedges.
    unfold nodes_of. by rewrite map_imap_empty.
  - by eapply mirror_updateVisualization_any.
  - intros Hav. split.
    + by eapply mirror_pull_available.
    + by eapply mirror_push_available.
Qed.

Lemma snapshot_replaces_mirror_witness :
  let st' := fst (updateVisualization ex_snapshot ex_loaded) in
  snd (updateVisualization ex_snapshot ex_loaded) = Done tt /\
  (forall id,
     allNodes st' !! id =
     (fun c =>
        {| node_id := id;
           node_label :=
             "📦 " +:+ c_name c +:+ nl +:+
             "🆔 " +:+ substring 0 8 id +:+ nl +:+
             (if (c_status c =? "running")%string then "🟢" else "🔴") +:+
             " " +:+ c_status c;
           node_color :=
             if (c_status c =? "running")%string
             then {| background := "#dcfce7"; border := "#16a34a" |}
             else {| background := "#fecaca"; border := "#dc2626" |};
           node_shape := "box" |}) <$> ex_containers !! id) /\
  size (allNodes st') = size ex_containers /\
  (forall conn, conn ∈ [ex_link] ->
     allEdges st' !! conn_id conn =
     Some {| edge_id := conn_id conn;
             edge_from := conn_source conn;
             edge_to := conn_target conn;
             edge_label := " " +:+ conn_network conn +:+ " ";
             edge_arrows := "to" |}) /\
  (forall id e, allEdges st' !! id = Some e ->
     exists conn,
       conn ∈ [ex_link] /\ conn_id conn = id /\
       e = {| edge_id := conn_id conn;
              edge_from := conn_source conn;
              edge_to := conn_target conn;
              edge_label := " " +:+ conn_network conn +:+ " ";
              edge_arrows := "to" |}) /\
  size (allEdges st') = length [ex_link] /\
  (ex_containers = ∅ -> allNodes st' = ∅) /\
  (ex_containers = ∅ -> [ex_link] = [] -> mirror st' = (∅, ∅)) /\
  mirror (fst (updateVisualization ex_snapshot st')) = mirror st' /\
  (available ex_snapshot = true ->
   mirror (step ex_loaded (EvPullResponse ex_snapshot)) = mirror st' /\
   mirror (step ex_loaded (EvWsMessage ex_snapshot)) = mirror st').
Proof.
  apply (snapshot_replaces_mirror ex_snapshot ex_containers [ex_link] ex_loaded).
  - reflexivity.
  - reflexivity.
  - simpl. apply NoDup_singleton.
Defined.

(** C4, counterexample: an available payload with no container and one
    connection leaves an edge in the Mirror, which is therefore not empty; and
    an available payload in which a connection id occurs twice leaves one edge
    for its two connections. *)
Lemma empty_containers_leave_edges :
  available ex_link_only = true /\
  allNodes (fst (updateVisualization ex_link_only initial)) = ∅ /\
  size (allEdges (fst (updateVisualization ex_link_only initial))) = 1 /\
  ~ empty_containers_empty_mirror /\
  available ex_link_twice = true /\
  size (allEdges (fst (updateVisualization ex_link_twice initial))) = 1 /\
  ~ edges_are_the_connections.
Proof.
  split; [reflexivity|]. split; [reflexivity|]. split; [reflexivity|]. split.
  - intros Hempty.
    specialize (Hempty ex_link_only [ex_link] initial eq_refl eq_refl eq_refl).
    apply (f_equal (fun m => size m.2)) in Hempty.
    vm_compute in Hempty. discriminate.
  - split; [reflexivity|]. split; [reflexivity|].
    intros Hedges.
    specialize (Hedges ex_link_twice ex_containers [ex_link; ex_link] initial
                  eq_refl eq_refl eq_refl).
    vm_compute in Hedges. discriminate.
Qed.

Lemma elem_of_ds_keys {A} (ds : gmap string A) id :
  id ∈ ds_keys ds <-> is_Some (ds !! id).
Proof.
  unfold ds_keys. rewrite list_elem_of_fmap. split.
  - intros [[k x] [-> Hx]]. apply elem_of_map_to_list in Hx. by exists x.
  - intros [x Hx]. exists (id, x). split; [done|]. by apply elem_of_map_to_list.
Qed.

Lemma touched_nodes_app l1 l2 :
  touched_nodes (l1 ++ l2) = touched_nodes l1 ++ touched_nodes l2.
Proof. apply omap_app. Qed.

Lemma touched_edges_app l1 l2 :
  touched_edges (l1 ++ l2) = touched_edges l1 ++ touched_edges l2.
Proof. apply omap_app. Qed.

Lemma touched_nodes_parts (rn re : list string) (ns : list node) (es : list edge) :
  touched_nodes ((RemoveNode <$> rn) ++ (RemoveEdge <$> re) ++
                 (AddNode <$> ns) ++ (AddEdge <$> es)) = rn ++ (node_id <$> ns).
Proof.
  rewrite !touched_nodes_app. unfold touched_nodes.
  replace (omap _ (RemoveNode <$> rn)) with rn
    by (induction rn; csimpl; by f_equal).
  replace (omap _ (RemoveEdge <$> re)) with (@nil string)
    by (induction re; csimpl; by f_equal).
  replace (omap _ (AddEdge <$> es)) with (@nil string)
    by (induction es; csimpl; by f_equal).
  replace (omap _ (AddNode <$> ns)) with (node_id <$> ns)
    by (induction ns; csimpl; by f_equal).
  by rewrite app_nil_r.
Qed.

Lemma touched_edges_parts (rn re : list string) (ns : list node) (es : list edge) :
  touched_edges ((RemoveNode <$> rn) ++ (RemoveEdge <$> re) ++
                 (AddNode <$> ns) ++ (AddEdge <$> es)) = re ++ (edge_id <$> es).
Proof.
  rewrite !touched_edges_app. unfold touched_edges.
  replace (omap _ (RemoveNode <$> rn)) with (@nil string)
    by (induction rn; csimpl; by f_equal).
  replace (omap _ (RemoveEdge <$> re)) with re
    by (induction re; csimpl; by f_equal).
  replace (omap _ (AddEdge <$> es)) with (edge_id <$> es)
    by (induction es; csimpl; by f_equal).
  replace (omap _ (AddNode <$> ns)) with (@nil string)
    by (induction ns; csimpl; by f_equal).
  done.
Qed.

(** C1, as the code has it: a reconciliation is a wholesale replacement.
    It removes every node and every edge of the Mirror and then adds every
    node and every edge of the snapshot, so the entries it touches are those
    present in the Mirror or in the snapshot, whether they differ or not. *)
Theorem reconciliation_replaces_every_entry data cs es st :
  containers data = Some cs -> connections data = Some es ->
  NoDup (conn_id <$> es) ->
  delta_of data st =
    (RemoveNode <$> ds_keys (allNodes st)) ++
    (RemoveEdge <$> ds_keys (allEdges st)) ++
    (AddNode <$> nodes_list cs) ++
    (AddEdge <$> (edge_of <$> es)) /\
  (forall id, id ∈ touched_nodes (delta_of data st) <->
              is_Some (allNodes st !! id) \/ is_Some (cs !! id)) /\
  (forall id, id ∈ touched_edges (delta_of data st) <->
              is_Some (allEdges st !! id) \/ id ∈ conn_id <$> es) /\
  (forall id n, allNodes st !! id = Some n -> RemoveNode id ∈ delta_of data st) /\
  (forall id c, cs !! id = Some c -> AddNode (node_of id c) ∈ delta_of data st).
Proof.
  intros Hcs Hes Hnd.
  assert (Hdelta : delta_of data st =
    (RemoveNode <$> ds_keys (allNodes st)) ++
    (RemoveEdge <$> ds_keys (allEdges st)) ++
    (AddNode <$> nodes_list cs) ++
    (AddEdge <$> (edge_of <$> es))).
  { rewrite (delta_of_closed_form _ _ _ _ Hcs Hes). by rewrite ds_add_edges. }
  split; [done|]. rewrite Hdelta. split; [|split; [|split]].
  - intros id. rewrite touched_nodes_parts, elem_of_app, elem_of_ds_keys.
    rewrite nodes_list_ids. fold (ds_keys cs). by rewrite elem_of_ds_keys.
  - intros id. rewrite touched_edges_parts, elem_of_app, elem_of_ds_keys.
    by rewrite <- !list_fmap_compose.
  - intros id n Hn. rewrite elem_of_app. left.
    apply list_elem_of_fmap_2, elem_of_ds_keys. by exists n.
  - intros id c Hc. rewrite !elem_of_app. right; right; left.
    by apply list_elem_of_fmap_2, node_of_in_nodes_list.
Qed.

Lemma reconciliation_replaces_every_entry_witness :
  delta_of ex_snapshot ex_loaded =
    (RemoveNode <$> ds_keys (allNodes ex_loaded)) ++
    (RemoveEdge <$> ds_keys (allEdges ex_loaded)) ++
    (AddNode <$> nodes_list ex_containers) ++
    (AddEdge <$> (edge_of <$> [ex_link])) /\
  (forall id, id ∈ touched_nodes (delta_of ex_snapshot ex_loaded) <->
              is_Some (allNodes ex_loaded !! id) \/ is_Some (ex_containers !! id)) /\
  (forall id, id ∈ touched_edges (delta_of ex_snapshot ex_loaded) <->
              is_Some (allEdges ex_loaded !! id) \/ id ∈ conn_id <$> [ex_link]) /\
  (forall id n, allNodes ex_loaded !! id = Some n ->
                RemoveNode id ∈ delta_of ex_snapshot ex_loaded) /\
  (forall id c, ex_containers !! id = Some c ->
                AddNode (node_of id c) ∈ delta_of ex_snapshot ex_loaded).
Proof.
  apply (reconciliation_replaces_every_entry ex_snapshot ex_containers [ex_link]
           ex_loaded).
  - reflexivity.
  - reflexivity.
  - refine (bool_decide_unpack _ _). vm_compute. exact I.
Defined.

(** C1, counterexample: the node of [web] is the same in the Mirror and in
    the snapshot, and yet reconciliation removes it and adds it again. *)
Lemma unchanged_node_is_removed_and_added_again :
  allNodes ex_loaded !! "3f2a9c41d07b" = nodes_of ex_containers !! "3f2a9c41d07b" /\
  RemoveNode "3f2a9c41d07b" ∈ delta_of ex_snapshot ex_loaded /\
  AddNode (node_of "3f2a9c41d07b" ex_web) ∈ delta_of ex_snapshot ex_loaded /\
  ~ minimal_diff ex_snapshot ex_loaded.
Proof.
  assert (Hrem : RemoveNode "3f2a9c41d07b" ∈ delta_of ex_snapshot ex_loaded).
  { apply list_elem_of_In. vm_compute. tauto. }
  split; [reflexivity|]. split; [done|]. split.
  - apply list_elem_of_In. vm_compute. tauto.
  - intros Hmin.
    destruct (Hmin ex_containers [ex_link] eq_refl eq_refl) as [Hnodes _].
    apply (Hnodes "3f2a9c41d07b"); [|reflexivity].
    apply list_elem_of_omap. by exists (RemoveNode "3f2a9c41d07b").
Qed.

(** C5, counterexample: the Mirror already holds two nodes, the snapshot
    leaves two nodes, and a fit-to-view is scheduled all the same. *)
Lemma fit_scheduled_on_routine_refresh :
  size (allNodes ex_loaded) = 2 /\
  size (allNodes (fst (updateVisualization ex_snapshot ex_loaded))) = 2 /\
  timeouts (fst (updateVisualization ex_snapshot ex_loaded)) =
    timeouts ex_loaded ++ [(500%Z, FitView)] /\
  ~ fit_only_on_first_population.
Proof.
  split; [reflexivity|]. split; [reflexivity|]. split; [reflexivity|].
  intros Hfit.
  assert (Hne : forall st, size (allNodes st) = 2 -> allNodes st <> ∅).
  { intros st Hsz Hem. rewrite Hem in Hsz. by rewrite map_size_empty in Hsz. }
  specialize (Hfit ex_snapshot ex_loaded (Hne ex_loaded eq_refl)
                (Hne (fst (updateVisualization ex_snapshot ex_loaded)) eq_refl)).
  apply (f_equal length) in Hfit. vm_compute in Hfit. discriminate.
Qed.

(** ** Partial payloads *)

Lemma updateVisualization_missing data st :
  containers data = None \/ connections data = None ->
  updateVisualization data st = (st, Throw TypeError).
Proof.
  unfold updateVisualization, bind, Object_entries, Array_map.
  intros [H|H]; rewrite H; [done|]. by destruct (containers data).
Qed.

(** C5, as the code has it: the fit-to-view is scheduled, 500ms ahead, by
    every reconciliation that completes and leaves a node in the Mirror,
    whatever the Mirror held before; it is scheduled neither by a
    reconciliation that leaves the Mirror without a node nor by one that raises
    before it completes (a payload without its containers or connections, or
    a connection id that the DataSet rejects as repeated).  A payload that
    carries both collections, with pairwise distinct connection ids, always
    completes. *)
Theorem fit_scheduled_on_every_nonempty_update (data : payload) (st : state) :
  let st' := fst (updateVisualization data st) in
  timeouts st' =
    timeouts st ++
      match snd (updateVisualization data st) with
      | Done _ => if decide (allNodes st' = ∅) then [] else [(500%Z, FitView)]
      | Throw _ => []
      end /\
  (forall cs es,
     containers data = Some cs -> connections data = Some es ->
     NoDup (conn_id <$> es) ->
     snd (updateVisualization data st) = Done tt /\
     (allNodes st' = ∅ <-> cs = ∅)) /\
  (containers data = None \/ connections data = None ->
   snd (updateVisualization data st) = Throw TypeError).
Proof.
  assert (Hempty : forall cs, nodes_of cs = ∅ <-> cs = ∅).
  { intros cs. split.
    - intros Hn. apply map_size_empty_iff.
      rewrite <- nodes_of_size, Hn. apply map_size_empty.
    - intros ->. apply map_imap_empty. }
  simpl. split; [|split].
  - destruct (containers data) as [cs|] eqn:Hcs;
      [destruct (connections data) as [es|] eqn:Hes|].
    + rewrite (updateVisualization_closed_form _ _ _ _ Hcs Hes). unfold reconcile.
      destruct (ds_add edge_id (edge_of <$> es) ∅) as [[eds added] [e|]]; simpl;
        [done|].
      destruct (decide (cs = ∅)) as [Hc|Hc].
      * by rewrite decide_True by (by apply Hempty).
      * rewrite decide_False; [done|]. by rewrite Hempty.
    + rewrite updateVisualization_missing by (by right). simpl.
      by rewrite app_nil_r.
    + rewrite updateVisualization_missing by (by left). simpl.
      by rewrite app_nil_r.
  - intros cs es Hcs Hes Hnd.
    rewrite (updateVisualization_closed_form _ _ _ _ Hcs Hes). unfold reconcile.
    rewrite (ds_add_edges _ Hnd). simpl. split; [done|apply Hempty].
  - intros Hmiss. by rewrite updateVisualization_missing.
Qed.

Lemma try_catch_total (m h : M unit) st :
  (forall st', snd (h st') = Done tt) ->
  snd (try_catch m (fun _ => h) st) = Done tt.
Proof.
  intros Hh. unfold try_catch. destruct (m st) as [st' [[]|e]]; [done|apply Hh].
Qed.

(** C6, as the code has it: a summary object with missing counters is
    processed without an error, each missing counter being shown as 0 and each
    counter that is present and non-zero as it is; and the pull path as a whole
    never lets an error escape, whatever the payload lacks.  A payload without
    its containers mapping or its connections sequence gets no default:
    [updateVisualization] raises before it has changed anything. *)
Theorem missing_counters_default_to_zero (s : summary_t) (st : state) :
  let st' := fst (updateSummary (Some s) st) in
  snd (updateSummary (Some s) st) = Done tt /\
  statContainers (statNumbers st') =
    (if truthy (total_containers s) then total_containers s else JNum 0) /\
  statRunning (statNumbers st') =
    (if truthy (running_containers s) then running_containers s else JNum 0) /\
  statNetworks (statNumbers st') =
    (if truthy (total_networks s) then total_networks s else JNum 0) /\
  statConnections (statNumbers st') =
    (if truthy (total_connections s) then total_connections s else JNum 0) /\
  (s = mkSummary JUndefined JUndefined JUndefined JUndefined ->
   statNumbers st' = mkStats (JNum 0) (JNum 0) (JNum 0) (JNum 0)) /\
  mirror st' = mirror st /\
  (forall response, snd (loadData_resume response st) = Done tt) /\
  (forall data,
     containers data = None \/ connections data = None ->
     updateVisualization data st = (st, Throw TypeError)).
Proof.
  simpl. repeat split; try done.
  - by intros ->.
  - intros response. by apply try_catch_total.
  - intros data. apply updateVisualization_missing.
Qed.

(** C6, counterexample: an available payload without a containers mapping
    makes [updateVisualization] raise a TypeError, which escapes the push
    handler; a payload without a summary object makes [updateSummary] raise. *)
Lemma missing_containers_raise :
  available ex_partial = true /\
  snd (updateVisualization ex_partial initial) = Throw TypeError /\
  snd (ws_onmessage ex_partial initial) = Throw TypeError /\
  snd (updateSummary (summary ex_daemon_down) initial) = Throw TypeError /\
  ~ total_on_partial_snapshots.
Proof.
  repeat split; try reflexivity.
  intros Htotal. destruct (Htotal ex_partial initial) as [Hviz _]. discriminate.
Qed.

(** ** Unavailable payloads *)

Lemma unavailable_pull data st :
  available data = false ->
  mirror (step st (EvPullResponse data)) = mirror st /\
  containerList (step st (EvPullResponse data)) = containerList st /\
  noDataOverlay (step st (EvPullResponse data)) = true.
Proof.
  intros Hav. unfold step, handle.
  rewrite loadData_resume_guard, Hav. done.
Qed.

Lemma failed_pull st :
  mirror (step st EvPullFailure) = mirror st /\
  containerList (step st EvPullFailure) = containerList st /\
  noDataOverlay (step st EvPullFailure) = true.
Proof. done. Qed.

Lemma unavailable_push data st :
  available data = false ->
  mirror (step st (EvWsMessage data)) = mirror st /\
  containerList (step st (EvWsMessage data)) = containerList st /\
  noDataOverlay (step st (EvWsMessage data)) =
    negb (strict_ne_false (docker_available data)).
Proof.
  intros Hav. unfold step, handle.
  rewrite ws_onmessage_guard, Hav. done.
Qed.

(** C2, at the failing input: a push message that carries an error but does
    not declare Docker unavailable is not available, and yet after the push
    handler the overlay is hidden, where the pull handler shows it for the same
    payload. *)
Theorem push_error_payload_hides_overlay (st : state) :
  available ex_daemon_down = false /\
  noDataOverlay (step st (EvWsMessage ex_daemon_down)) = false /\
  noDataOverlay (step st (EvPullResponse ex_daemon_down)) = true.
Proof. done. Qed.

(** C3, at the failing input: for the same push message the Mirror and the
    container list are kept as they were, but the unavailability overlay is
    not set.  Every unavailable payload leaves the Mirror and the container
    list as they were; the overlay is set by the pull path always, and by
    the push path only when [docker_available] is explicitly false. *)
Theorem push_error_payload_keeps_mirror_unflagged (st : state) :
  (available ex_daemon_down = false /\
   mirror (step st (EvWsMessage ex_daemon_down)) = mirror st /\
   containerList (step st (EvWsMessage ex_daemon_down)) = containerList st /\
   noDataOverlay (step st (EvWsMessage ex_daemon_down)) = false) /\
  (forall data,
     available data = false ->
     (mirror (step st (EvPullResponse data)) = mirror st /\
      containerList (step st (EvPullResponse data)) = containerList st /\
      noDataOverlay (step st (EvPullResponse data)) = true) /\
     (mirror (step st (EvWsMessage data)) = mirror st /\
      containerList (step st (EvWsMessage data)) = containerList st /\
      noDataOverlay (step st (EvWsMessage data)) =
        negb (strict_ne_false (docker_available data)))) /\
  (mirror (step st EvPullFailure) = mirror st /\
   containerList (step st EvPullFailure) = containerList st /\
   noDataOverlay (step st EvPullFailure) = true).
Proof.
  split; [done|]. split; [|apply failed_pull].
  intros data Hav. split.
  - by apply unavailable_pull.
  - by apply unavailable_push.
Qed.

(** ** The polling timer *)

Lemma updateVisualization_frame data st :
  let st' := fst (updateVisualization data st) in
  dockerAvailable st' = dockerAvailable st /\
  noDataOverlay st' = noDataOverlay st /\
  connectionStatus st' = connectionStatus st /\
  requests st' = requests st /\
  sockets st' = sockets st.
Proof.
  destruct (containers data) as [cs|] eqn:Hcs;
    [destruct (connections data) as [es|] eqn:Hes|].
  - rewrite (updateVisualization_closed_form _ _ _ _ Hcs Hes). unfold reconcile.
    by destruct (ds_add edge_id (edge_of <$> es) ∅) as [[eds added] r].
  - rewrite updateVisualization_missing by (by right). done.
  - rewrite updateVisualization_missing by (by left). done.
Qed.

Lemma keeps_flag_reconciliation data :
  keeps dockerAvailable
    (updateVisualization data >>
     updateSummary (summary data) >>
     updateContainerList (containers data) >>
     hideNoDataOverlay).
Proof.
  apply keeps_bind; [intros st; apply updateVisualization_frame|intros _].
  apply keeps_bind; [intros st; by destruct (summary data)|intros _].
  apply keeps_bind; [|done].
  intros st. destruct (containers data) as [cs|]; [|done].
  unfold updateContainerList, bind; simpl. by destruct (length _ =? 0)%nat.
Qed.

Lemma flag_after_pull data st :
  dockerAvailable (step st (EvPullResponse data)) =
  strict_ne_false (docker_available data).
Proof.
  unfold step, handle. rewrite loadData_resume_guard.
  rewrite (keeps_step_try_catch dockerAvailable) by done.
  destruct (available data); [|done].
  by rewrite keeps_flag_reconciliation.
Qed.

Lemma flag_after_push data st :
  dockerAvailable (step st (EvWsMessage data)) =
  strict_ne_false (docker_available data).
Proof.
  unfold step, handle. rewrite ws_onmessage_guard.
  destruct (available data); [|done].
  by rewrite keeps_flag_reconciliation.
Qed.

(** C7, as the code has it: a tick of the 30-second timer issues a pull
    request exactly when the variable [dockerAvailable] is true.  That
    variable is false at start, takes the value of
    [docker_available !== false] of each pull response and push message, and
    is left as it was by a failed pull and by an error field; so no request is
    issued on a tick that follows a payload declaring [docker_available]
    false. *)
Theorem timer_polls_iff_flag (st : state) :
  requests (step st EvTick) =
    (if dockerAvailable st then S (requests st) else requests st) /\
  dockerAvailable initial = false /\
  (forall data,
     dockerAvailable (step st (EvPullResponse data)) =
       strict_ne_false (docker_available data) /\
     dockerAvailable (step st (EvWsMessage data)) =
       strict_ne_false (docker_available data)) /\
  dockerAvailable (step st EvPullFailure) = dockerAvailable st /\
  (forall data,
     docker_available data = JBool false ->
     requests (step (step st (EvPullResponse data)) EvTick) =
       requests (step st (EvPullResponse data)) /\
     requests (step (step st (EvWsMessage data)) EvTick) =
       requests (step st (EvWsMessage data))).
Proof.
  assert (Htick : forall st0, requests (step st0 EvTick) =
            (if dockerAvailable st0 then S (requests st0) else requests st0)).
  { intros st0. unfold step, handle, interval_tick, bind, gets, loadData, modify.
    by destruct (dockerAvailable st0). }
  split; [apply Htick|]. split; [done|]. split; [|split; [done|]].
  - intros data. split; [apply flag_after_pull|apply flag_after_push].
  - intros data Hd. rewrite !Htick, flag_after_pull, flag_after_push.
    by rewrite Hd.
Qed.

(** C7, counterexample: a pull response with an error field is classified
    unavailable, and the next tick of the timer issues a request all the same;
    so does the tick after a failed pull that follows an available payload. *)
Lemma timer_polls_after_error_payload :
  available ex_daemon_down = false /\
  requests (step (step initial (EvPullResponse ex_daemon_down)) EvTick) =
    S (requests (step initial (EvPullResponse ex_daemon_down))) /\
  requests (step (step ex_loaded EvPullFailure) EvTick) =
    S (requests (step ex_loaded EvPullFailure)) /\
  ~ timer_follows_classification.
Proof.
  repeat split; try reflexivity.
  intros Hfollows. specialize (Hfollows ex_daemon_down initial eq_refl).
  vm_compute in Hfollows. discriminate.
Qed.

(** ** The push channel *)

Lemma channel_event_step ev st :
  channel_event ev = true ->
  mirror (step st ev) = mirror st /\
  dockerAvailable (step st ev) = dockerAvailable st /\
  noDataOverlay (step st ev) = noDataOverlay st.
Proof. destruct ev as [| | | | | | | | |[]]; try discriminate; done. Qed.

Lemma channel_events_run evs : forall st,
  forallb channel_event evs = true ->
  mirror (run evs st) = mirror st.
Proof.
  induction evs as [|ev evs IH]; intros st Hevs; [done|].
  simpl in Hevs. apply andb_true_iff in Hevs as [Hev Hevs].
  simpl. rewrite IH by done. by apply channel_event_step.
Qed.

(** C8, as the code has it: the close handler shows the indicator as
    disconnected and schedules a reconnect 5 seconds later; the error handler
    shows the indicator as disconnected and schedules nothing; the open
    handler shows the indicator as connected; the reconnect constructs a new
    socket.  None of the four alters the Mirror, and so no sequence of them
    does. *)
Theorem push_channel_loss_and_recovery (st : state) :
  (connectionStatus (step st EvWsClose) = mkStatusView "status-indicator " "Отключено" /\
   timeouts (step st EvWsClose) = timeouts st ++ [(5000%Z, Reconnect)] /\
   mirror (step st EvWsClose) = mirror st) /\
  (connectionStatus (step st EvWsError) = mkStatusView "status-indicator " "Отключено" /\
   timeouts (step st EvWsError) = timeouts st /\
   mirror (step st EvWsError) = mirror st) /\
  (connectionStatus (step st EvWsOpen) =
     mkStatusView "status-indicator connected" "Подключено" /\
   mirror (step st EvWsOpen) = mirror st) /\
  (sockets (step st (EvTimeout Reconnect)) = S (sockets st) /\
   mirror (step st (EvTimeout Reconnect)) = mirror st) /\
  (forall evs,
     forallb channel_event evs = true ->
     mirror (run evs st) = mirror st /\
     connectionStatus (run (evs ++ [EvWsOpen]) st) =
       mkStatusView "status-indicator connected" "Подключено").
Proof.
  repeat split; try done.
  - by apply channel_events_run.
  - unfold run. by rewrite fold_left_app.
Qed.

(** C8, counterexample: the error handler schedules no reconnect. *)
Lemma error_event_schedules_no_reconnect :
  timeouts (step initial EvWsError) = [] /\
  reconnect_scheduled_on EvWsClose /\
  ~ reconnect_scheduled_on EvWsError.
Proof.
  split; [reflexivity|]. split; [done|].
  intros Hsched. specialize (Hsched initial). discriminate.
Qed.

(** ** The container list *)

Lemma updateContainerList_present cs st :
  updateContainerList (Some cs) st =
  (set_containerList
     (if decide (cs = ∅) then Placeholder
      else Items ((fun '(id, c) => item_of id c) <$> map_to_list cs)) st,
   Done tt).
Proof.
  unfold updateContainerList, bind, Object_entries, ret, modify.
  destruct (map_to_list cs) as [|p l] eqn:Hl.
  - apply map_to_list_empty_iff in Hl as ->. by rewrite decide_True.
  - rewrite decide_False; [done|]. intros ->.
    by rewrite map_to_list_empty in Hl.
Qed.

Lemma items_of_mapping (cs : gmap string container) it :
  it ∈ (fun '(id, c) => item_of id c) <$> map_to_list cs <->
  exists id c, cs !! id = Some c /\ it = item_of id c.
Proof.
  rewrite list_elem_of_fmap. split.
  - intros [[id c] [-> Hin]]. exists id, c. split; [|done].
    by apply elem_of_map_to_list.
  - intros (id & c & Hc & ->). exists (id, c). split; [done|].
    by apply elem_of_map_to_list.
Qed.

Lemma substring_0_length n : forall s,
  String.length (substring 0 n s) = Nat.min n (String.length s).
Proof.
  induction n as [|n IH]; intros [|ch s]; simpl; try done.
  by rewrite IH.
Qed.

Lemma substring_0_short n : forall s,
  String.length s <= n -> substring 0 n s = s.
Proof.
  induction n as [|n IH]; intros [|ch s] Hlen; simpl in *; try done; try lia.
  rewrite IH; [done|lia].
Qed.

Lemma substring_0_prefix n : forall s, String.prefix (substring 0 n s) s = true.
Proof.
  induction n as [|n IH]; intros [|ch s]; simpl; try done.
  destruct (ascii_dec ch ch); [apply IH|done].
Qed.

(** The container list shows the placeholder exactly when the mapping has
    no container; otherwise it shows exactly one item per container, carrying
    the container's name and image, the running class exactly when its status
    is [running], and the start of its id: the first 12 characters, or the
    whole id when it is shorter.  The Mirror is left alone, and without a
    mapping the function raises and changes nothing. *)
Theorem container_list_shows_every_container (cs : gmap string container) (st : state) :
  let st' := fst (updateContainerList (Some cs) st) in
  snd (updateContainerList (Some cs) st) = Done tt /\
  (containerList st' = Placeholder <-> cs = ∅) /\
  (cs <> ∅ ->
   exists l,
     containerList st' = Items l /\ length l = size cs /\
     forall it,
       it ∈ l <->
       exists id c,
         cs !! id = Some c /\
         it = {| item_running := (c_status c =? "running")%string;
                 item_name := c_name c;
                 item_short_id := substring 0 12 id;
                 item_image := c_image c |} /\
         String.prefix (item_short_id it) id = true /\
         String.length (item_short_id it) = Nat.min 12 (String.length id) /\
         (String.length id <= 12 -> item_short_id it = id)) /\
  mirror st' = mirror st /\
  updateContainerList None st = (st, Throw TypeError).
Proof.
  rewrite updateContainerList_present. simpl.
  split; [done|]. split; [|split; [|done]].
  - destruct (decide (cs = ∅)); [done|]. split; [discriminate|done].
  - intros Hne. rewrite decide_False by done. eexists. split; [done|]. split.
    + by rewrite length_fmap, length_map_to_list.
    + intros it. rewrite items_of_mapping. split.
      * intros (id & c & Hc & ->). exists id, c. simpl.
        split; [done|]. split; [done|]. split; [apply substring_0_prefix|].
        split; [apply substring_0_length|apply substring_0_short].
      * intros (id & c & Hc & -> & _). by exists id, c.
Qed.

(** ** Complete payloads *)

Lemma processing_complete data cs es s st :
  containers data = Some cs -> connections data = Some es ->
  NoDup (conn_id <$> es) -> summary data = Some s ->
  (updateVisualization data >>
   updateSummary (summary data) >>
   updateContainerList (containers data) >>
   hideNoDataOverlay) st =
  (set_noDataOverlay false
     (set_containerList
        (if decide (cs = ∅) then Placeholder
         else Items ((fun '(id, c) => item_of id c) <$> map_to_list cs))
        (set_statNumbers
           {| statContainers := js_or (total_containers s) (JNum 0);
              statRunning := js_or (running_containers s) (JNum 0);
              statNetworks := js_or (total_networks s) (JNum 0);
              statConnections := js_or (total_connections s) (JNum 0) |}
           (fst (updateVisualization data st)))),
   Done tt).
Proof.
  intros Hcs Hes Hnd Hs. unfold bind at 1.
  rewrite (updateVisualization_closed_form _ _ _ _ Hcs Hes). unfold reconcile.
  rewrite (ds_add_edges _ Hnd). cbn [fst].
  unfold bind at 1. rewrite Hs. unfold updateSummary, modify.
  unfold bind. rewrite Hcs, updateContainerList_present. done.
Qed.

(** After an available payload that carries its containers, connections and
    summary, on the pull path as on the push path, the container list and the
    graph agree: there are as many items as nodes, and every container has an
    item and a node under its id, the item marked running exactly when the node
    has the success palette. *)
Theorem container_list_agrees_with_graph data cs es s st :
  containers data = Some cs -> connections data = Some es ->
  NoDup (conn_id <$> es) -> summary data = Some s ->
  available data = true -> cs <> ∅ ->
  forall ev, ev = EvPullResponse data \/ ev = EvWsMessage data ->
  exists l,
    containerList (step st ev) = Items l /\
    length l = size (allNodes (step st ev)) /\
    forall id c, cs !! id = Some c ->
      exists n,
        allNodes (step st ev) !! id = Some n /\
        item_of id c ∈ l /\
        (item_running (item_of id c) = true <-> node_color n = success_palette).
Proof.
  intros Hcs Hes Hnd Hs Hav Hne ev Hev.
  assert (Hstep : step st ev =
    fst ((updateVisualization data >>
          updateSummary (summary data) >>
          updateContainerList (containers data) >>
          hideNoDataOverlay)
           (set_noDataOverlay (negb (strict_ne_false (docker_available data)))
              (set_dockerAvailable (strict_ne_false (docker_available data)) st)))).
  { destruct Hev as [-> | ->]; unfold step, handle.
    - rewrite loadData_resume_guard, Hav. unfold try_catch.
      by rewrite (processing_complete _ _ _ _ _ Hcs Hes Hnd Hs).
    - by rewrite ws_onmessage_guard, Hav. }
  rewrite Hstep, (processing_complete _ _ _ _ _ Hcs Hes Hnd Hs).
  rewrite (updateVisualization_closed_form _ _ _ _ Hcs Hes). unfold reconcile.
  rewrite (ds_add_edges _ Hnd). cbn [fst]. rewrite decide_False by done.
  eexists. split; [done|]. split.
  - cbn. by rewrite length_fmap, length_map_to_list, nodes_of_size.
  - intros id c Hc. exists (node_of id c). cbn. rewrite nodes_of_lookup, Hc.
    split; [done|]. split.
    + apply items_of_mapping. by exists id, c.
    + unfold item_of, node_of; simpl.
      destruct (c_status c =? "running")%string; [done|]. split; discriminate.
Qed.

Lemma container_list_agrees_with_graph_witness :
  exists l,
    containerList (step initial (EvWsMessage ex_snapshot)) = Items l /\
    length l = size (allNodes (step initial (EvWsMessage ex_snapshot))) /\
    forall id c, ex_containers !! id = Some c ->
      exists n,
        allNodes (step initial (EvWsMessage ex_snapshot)) !! id = Some n /\
        item_of id c ∈ l /\
        (item_running (item_of id c) = true <-> node_color n = success_palette).
Proof.
  apply (container_list_agrees_with_graph ex_snapshot ex_containers [ex_link]
           ex_summary initial).
  - reflexivity.
  - reflexivity.
  - refine (bool_decide_unpack _ _). vm_compute. exact I.
  - reflexivity.
  - reflexivity.
  - refine (bool_decide_unpack _ _). vm_compute. exact I.
  - right. reflexivity.
Defined.

Lemma step_pull_complete data cs es s st :
  containers data = Some cs -> connections data = Some es ->
  NoDup (conn_id <$> es) -> summary data = Some s ->
  available data = true ->
  step st (EvPullResponse data) =
  fst ((updateVisualization data >>
        updateSummary (summary data) >>
        updateContainerList (containers data) >>
        hideNoDataOverlay)
         (set_noDataOverlay (negb (strict_ne_false (docker_available data)))
            (set_dockerAvailable (strict_ne_false (docker_available data)) st))).
Proof.
  intros Hcs Hes Hnd Hs Hav. unfold step, handle.
  rewrite loadData_resume_guard, Hav. unfold try_catch.
  by rewrite (processing_complete _ _ _ _ _ Hcs Hes Hnd Hs).
Qed.

Lemma step_push_available data st :
  available data = true ->
  step st (EvWsMessage data) =
  fst ((updateVisualization data >>
        updateSummary (summary data) >>
        updateContainerList (containers data) >>
        hideNoDataOverlay)
         (set_noDataOverlay (negb (strict_ne_false (docker_available data)))
            (set_dockerAvailable (strict_ne_false (docker_available data)) st))).
Proof. intros Hav. unfold step, handle. by rewrite ws_onmessage_guard, Hav. Qed.

Lemma keeps_after_visualization {X} (f : state -> X) data :
  (forall v st, f (set_statNumbers v st) = f st) ->
  (forall v st, f (set_containerList v st) = f st) ->
  (forall v st, f (set_noDataOverlay v st) = f st) ->
  keeps f (updateSummary (summary data) >>
           updateContainerList (containers data) >> hideNoDataOverlay).
Proof.
  intros Hstat Hlist Hover.
  apply keeps_bind; [|intros _; apply keeps_bind; [|intros _]].
  - intros st. destruct (summary data); [apply Hstat|done].
  - intros st. destruct (containers data) as [cs|]; [|done].
    rewrite updateContainerList_present. apply Hlist.
  - intros st. apply Hover.
Qed.

Lemma updateVisualization_keeps_views data st :
  let st' := fst (updateVisualization data st) in
  console st' = console st /\
  statNumbers st' = statNumbers st /\
  containerList st' = containerList st /\
  fits st' = fits st.
Proof.
  destruct (containers data) as [cs|] eqn:Hcs;
    [destruct (connections data) as [es|] eqn:Hes|].
  - rewrite (updateVisualization_closed_form _ _ _ _ Hcs Hes). unfold reconcile.
    by destruct (ds_add edge_id (edge_of <$> es) ∅) as [[eds added] r].
  - rewrite updateVisualization_missing by (by right). done.
  - rewrite updateVisualization_missing by (by left). done.
Qed.

(** On the pull path, for every payload that carries its containers,
    connections and summary, the overlay is shown afterwards exactly when the
    payload is not available, and an error is logged exactly then: the
    payload's error, or the default text when it has none. *)
Theorem pull_overlay_iff_unavailable data cs es s st :
  containers data = Some cs -> connections data = Some es ->
  NoDup (conn_id <$> es) -> summary data = Some s ->
  noDataOverlay (step st (EvPullResponse data)) = negb (available data) /\
  console (step st (EvPullResponse data)) =
    console st ++
      (if available data then []
       else [if truthy (error data) then error data else JStr "Docker недоступен"]).
Proof.
  intros Hcs Hes Hnd Hs. destruct (available data) eqn:Hav.
  - rewrite (step_pull_complete _ _ _ _ _ Hcs Hes Hnd Hs Hav).
    rewrite (processing_complete _ _ _ _ _ Hcs Hes Hnd Hs). cbn.
    split; [done|]. rewrite app_nil_r.
    apply (updateVisualization_keeps_views data
             (set_noDataOverlay _ (set_dockerAvailable _ st))).
  - unfold step, handle. rewrite loadData_resume_guard, Hav. done.
Qed.

Lemma pull_overlay_iff_unavailable_witness :
  noDataOverlay (step ex_loaded (EvPullResponse ex_snapshot)) =
    negb (available ex_snapshot) /\
  console (step ex_loaded (EvPullResponse ex_snapshot)) =
    console ex_loaded ++
      (if available ex_snapshot then []
       else [if truthy (error ex_snapshot) then error ex_snapshot
             else JStr "Docker недоступен"]).
Proof.
  apply (pull_overlay_iff_unavailable ex_snapshot ex_containers [ex_link]
           ex_summary ex_loaded).
  - reflexivity.
  - reflexivity.
  - refine (bool_decide_unpack _ _). vm_compute. exact I.
  - reflexivity.
Defined.

(** On the push path, for every payload whatever it carries or lacks, the
    overlay afterwards is shown exactly when [docker_available] is explicitly
    false, and nothing is written to the error console: the error text of a
    push message is never reported. *)
Theorem push_overlay_follows_flag_only (data : payload) (st : state) :
  noDataOverlay (step st (EvWsMessage data)) =
    negb (strict_ne_false (docker_available data)) /\
  console (step st (EvWsMessage data)) = console st.
Proof.
  destruct (available data) eqn:Hav.
  - rewrite (step_push_available _ _ Hav).
    assert (Hd : strict_ne_false (docker_available data) = true).
    { unfold available in Hav. by apply andb_true_iff in Hav as [? _]. }
    rewrite Hd. split.
    + unfold bind at 1.
      pose proof (updateVisualization_frame data
        (set_noDataOverlay (negb true) (set_dockerAvailable true st))) as (_ & Hov & _).
      destruct (updateVisualization data _) as [st1 [[]|e]]; [|exact Hov].
      cbn [fst] in Hov.
      unfold bind at 1. destruct (summary data) as [s|]; [|exact Hov].
      cbn. unfold bind. destruct (containers data) as [cs|]; [|exact Hov].
      by rewrite updateContainerList_present.
    + rewrite (keeps_step_bind console)
        by (intros _; by apply keeps_after_visualization).
      apply (updateVisualization_keeps_views data
               (set_noDataOverlay _ (set_dockerAvailable _ st))).
  - unfold step, handle. rewrite ws_onmessage_guard, Hav. done.
Qed.

(** ** Available payloads that cannot be processed *)

(** An available payload without its containers mapping or its connections
    sequence changes nothing of what is displayed.  On the pull path it is
    reported like a failed request: the overlay is shown and the connection
    error is logged.  On the push path the TypeError escapes the handler and
    the overlay stays hidden.  Either way [dockerAvailable] is left true. *)
Theorem payload_without_collections data st :
  available data = true ->
  containers data = None \/ connections data = None ->
  (mirror (step st (EvPullResponse data)) = mirror st /\
   statNumbers (step st (EvPullResponse data)) = statNumbers st /\
   containerList (step st (EvPullResponse data)) = containerList st /\
   timeouts (step st (EvPullResponse data)) = timeouts st /\
   noDataOverlay (step st (EvPullResponse data)) = true /\
   console (step st (EvPullResponse data)) =
     console st ++ [JStr "Ошибка подключения"] /\
   dockerAvailable (step st (EvPullResponse data)) = true) /\
  (snd (ws_onmessage data st) = Throw TypeError /\
   mirror (step st (EvWsMessage data)) = mirror st /\
   statNumbers (step st (EvWsMessage data)) = statNumbers st /\
   containerList (step st (EvWsMessage data)) = containerList st /\
   timeouts (step st (EvWsMessage data)) = timeouts st /\
   noDataOverlay (step st (EvWsMessage data)) = false /\
   dockerAvailable (step st (EvWsMessage data)) = true).
Proof.
  intros Hav Hmiss.
  assert (Hd : strict_ne_false (docker_available data) = true).
  { unfold available in Hav. by apply andb_true_iff in Hav as [? _]. }
  assert (Hpush : ws_onmessage data st =
            (set_noDataOverlay false (set_dockerAvailable true st), Throw TypeError)).
  { rewrite ws_onmessage_guard, Hav, Hd. unfold bind at 1.
    by rewrite (updateVisualization_missing _ _ Hmiss). }
  assert (Hpull : loadData_resume (Some data) st =
            (showError (JStr "Ошибка подключения") >> showNoDataOverlay)
              (set_noDataOverlay false (set_dockerAvailable true st))).
  { rewrite loadData_resume_guard, Hav, Hd. unfold try_catch, bind at 1.
    by rewrite (updateVisualization_missing _ _ Hmiss). }
  unfold step, handle. rewrite Hpush, Hpull. done.
Qed.

Lemma payload_without_collections_witness :
  (mirror (step ex_loaded (EvPullResponse ex_partial)) = mirror ex_loaded /\
   statNumbers (step ex_loaded (EvPullResponse ex_partial)) = statNumbers ex_loaded /\
   containerList (step ex_loaded (EvPullResponse ex_partial)) = containerList ex_loaded /\
   timeouts (step ex_loaded (EvPullResponse ex_partial)) = timeouts ex_loaded /\
   noDataOverlay (step ex_loaded (EvPullResponse ex_partial)) = true /\
   console (step ex_loaded (EvPullResponse ex_partial)) =
     console ex_loaded ++ [JStr "Ошибка подключения"] /\
   dockerAvailable (step ex_loaded (EvPullResponse ex_partial)) = true) /\
  (snd (ws_onmessage ex_partial ex_loaded) = Throw TypeError /\
   mirror (step ex_loaded (EvWsMessage ex_partial)) = mirror ex_loaded /\
   statNumbers (step ex_loaded (EvWsMessage ex_partial)) = statNumbers ex_loaded /\
   containerList (step ex_loaded (EvWsMessage ex_partial)) = containerList ex_loaded /\
   timeouts (step ex_loaded (EvWsMessage ex_partial)) = timeouts ex_loaded /\
   noDataOverlay (step ex_loaded (EvWsMessage ex_partial)) = false /\
   dockerAvailable (step ex_loaded (EvWsMessage ex_partial)) = true).
Proof.
  apply (payload_without_collections ex_partial ex_loaded).
  - reflexivity.
  - left. reflexivity.
Defined.

(** An available payload that carries its containers and its connections,
    with pairwise distinct ids, but no summary object is applied to the graph
    and then fails: the Mirror is replaced by the payload's, while the
    statistics and the container list are left as they were.  The pull path then shows the overlay and logs the
    connection error; the push path lets the TypeError escape with the overlay
    hidden. *)
Theorem payload_without_summary data cs es st :
  containers data = Some cs -> connections data = Some es ->
  NoDup (conn_id <$> es) -> summary data = None ->
  available data = true ->
  (mirror (step st (EvPullResponse data)) = (nodes_of cs, edges_of es) /\
   statNumbers (step st (EvPullResponse data)) = statNumbers st /\
   containerList (step st (EvPullResponse data)) = containerList st /\
   noDataOverlay (step st (EvPullResponse data)) = true /\
   console (step st (EvPullResponse data)) =
     console st ++ [JStr "Ошибка подключения"]) /\
  (snd (ws_onmessage data st) = Throw TypeError /\
   mirror (step st (EvWsMessage data)) = (nodes_of cs, edges_of es) /\
   statNumbers (step st (EvWsMessage data)) = statNumbers st /\
   containerList (step st (EvWsMessage data)) = containerList st /\
   noDataOverlay (step st (EvWsMessage data)) = false).
Proof.
  intros Hcs Hes Hnd Hs Hav.
  assert (Hd : strict_ne_false (docker_available data) = true).
  { unfold available in Hav. by apply andb_true_iff in Hav as [? _]. }
  pose (st1 := fst (updateVisualization data
                      (set_noDataOverlay false (set_dockerAvailable true st)))).
  assert (Hchain :
    (updateVisualization data >>
     updateSummary (summary data) >>
     updateContainerList (containers data) >>
     hideNoDataOverlay) (set_noDataOverlay false (set_dockerAvailable true st)) =
    (st1, Throw TypeError)).
  { subst st1. unfold bind at 1.
    rewrite (updateVisualization_closed_form _ _ _ _ Hcs Hes). unfold reconcile.
    rewrite (ds_add_edges _ Hnd). cbn [fst]. unfold bind at 1. by rewrite Hs. }
  assert (Hst1 : mirror st1 = (nodes_of cs, edges_of es) /\
                 statNumbers st1 = statNumbers st /\
                 containerList st1 = containerList st /\
                 console st1 = console st /\
                 noDataOverlay st1 = false).
  { subst st1.
    rewrite (updateVisualization_closed_form _ _ _ _ Hcs Hes). unfold reconcile.
    by rewrite (ds_add_edges _ Hnd). }
  destruct Hst1 as (Hm & Hst & Hl & Hc & Ho).
  unfold step, handle.
  rewrite loadData_resume_guard, ws_onmessage_guard, Hav, Hd.
  change (negb true) with false.
  unfold try_catch. rewrite Hchain. cbn.
  rewrite Hc. repeat split; done.
Qed.

Lemma payload_without_summary_witness :
  let data := mkPayload (JBool true) JNull (Some ex_containers) (Some [ex_link]) None in
  (mirror (step initial (EvPullResponse data)) = (nodes_of ex_containers, edges_of [ex_link]) /\
   statNumbers (step initial (EvPullResponse data)) = statNumbers initial /\
   containerList (step initial (EvPullResponse data)) = containerList initial /\
   noDataOverlay (step initial (EvPullResponse data)) = true /\
   console (step initial (EvPullResponse data)) =
     console initial ++ [JStr "Ошибка подключения"]) /\
  (snd (ws_onmessage data initial) = Throw TypeError /\
   mirror (step initial (EvWsMessage data)) = (nodes_of ex_containers, edges_of [ex_link]) /\
   statNumbers (step initial (EvWsMessage data)) = statNumbers initial /\
   containerList (step initial (EvWsMessage data)) = containerList initial /\
   noDataOverlay (step initial (EvWsMessage data)) = false).
Proof.
  apply (payload_without_summary
           (mkPayload (JBool true) JNull (Some ex_containers) (Some [ex_link]) None)
           ex_containers [ex_link] initial).
  - reflexivity.
  - reflexivity.
  - refine (bool_decide_unpack _ _). vm_compute. exact I.
  - reflexivity.
  - reflexivity.
Defined.

(** After an available payload that carries its containers, connections and
    summary, on either path, the four statistics show the counters of the
    summary as they were sent, 0 standing for a counter that is missing or
    zero; they are not recomputed from the containers and connections. *)
Theorem statistics_shown_as_sent data cs es s st :
  containers data = Some cs -> connections data = Some es ->
  NoDup (conn_id <$> es) -> summary data = Some s ->
  available data = true ->
  forall ev, ev = EvPullResponse data \/ ev = EvWsMessage data ->
  statNumbers (step st ev) =
    {| statContainers := if truthy (total_containers s) then total_containers s else JNum 0;
       statRunning := if truthy (running_containers s) then running_containers s else JNum 0;
       statNetworks := if truthy (total_networks s) then total_networks s else JNum 0;
       statConnections :=
         if truthy (total_connections s) then total_connections s else JNum 0 |}.
Proof.
  intros Hcs Hes Hnd Hs Hav ev [-> | ->].
  - rewrite (step_pull_complete _ _ _ _ _ Hcs Hes Hnd Hs Hav).
    by rewrite (processing_complete _ _ _ _ _ Hcs Hes Hnd Hs).
  - rewrite (step_push_available _ _ Hav).
    by rewrite (processing_complete _ _ _ _ _ Hcs Hes Hnd Hs).
Qed.

Lemma statistics_shown_as_sent_witness :
  statNumbers (step initial (EvPullResponse ex_snapshot)) =
    {| statContainers := if truthy (total_containers ex_summary)
                         then total_containers ex_summary else JNum 0;
       statRunning := if truthy (running_containers ex_summary)
                      then running_containers ex_summary else JNum 0;
       statNetworks := if truthy (total_networks ex_summary)
                       then total_networks ex_summary else JNum 0;
       statConnections := if truthy (total_connections ex_summary)
                          then total_connections ex_summary else JNum 0 |}.
Proof.
  apply (statistics_shown_as_sent ex_snapshot ex_containers [ex_link] ex_summary
           initial).
  - reflexivity.
  - reflexivity.
  - refine (bool_decide_unpack _ _). vm_compute. exact I.
  - reflexivity.
  - reflexivity.
  - left. reflexivity.
Defined.

(** ** Invariants of the event loop *)

Lemma ds_add_lookup {A} (key : A -> string) (P : string -> A -> Prop) items :
  forall ds,
    (forall id x, ds !! id = Some x -> P id x) ->
    (forall x, x ∈ items -> P (key x) x) ->
    forall id x, (ds_add key items ds).1.1 !! id = Some x -> P id x.
Proof.
  induction items as [|it rest IH]; intros ds Hds Hitems id x; simpl.
  - apply Hds.
  - destruct (ds !! key it) eqn:Hit; simpl; [apply Hds|].
    specialize (IH (<[key it:=it]> ds)).
    destruct (ds_add key rest (<[key it:=it]> ds)) as [[ds' added] r]; simpl in *.
    apply IH.
    + intros id' x'. rewrite lookup_insert. case_decide as Hk.
      * intros [= <-]. subst id'. apply Hitems. by left.
      * apply Hds.
    + intros x' Hx'. apply Hitems. by right.
Qed.

Lemma mirror_updateVisualization_cases data st :
  mirror (fst (updateVisualization data st)) = mirror st \/
  exists cs es,
    mirror (fst (updateVisualization data st)) =
    (nodes_of cs, (ds_add edge_id (edge_of <$> es) ∅).1.1).
Proof.
  destruct (containers data) as [cs|] eqn:Hcs;
    [destruct (connections data) as [es|] eqn:Hes|].
  - right. exists cs, es.
    rewrite (updateVisualization_closed_form _ _ _ _ Hcs Hes). unfold reconcile.
    by destruct (ds_add edge_id (edge_of <$> es) ∅) as [[eds added] r].
  - left. by rewrite updateVisualization_missing by (by right).
  - left. by rewrite updateVisualization_missing by (by left).
Qed.

Lemma mirror_step_cases ev st :
  mirror (step st ev) = mirror st \/
  exists cs es,
    mirror (step st ev) = (nodes_of cs, (ds_add edge_id (edge_of <$> es) ∅).1.1).
Proof.
  destruct ev as [| | |data| | |data| | |t]; unfold step, handle.
  - right. exists ∅, []. unfold nodes_of. by rewrite map_imap_empty.
  - left. unfold interval_tick, bind, gets. by destruct (dockerAvailable st).
  - by left.
  - rewrite loadData_resume_guard.
    rewrite (keeps_step_try_catch mirror) by (intros _; apply keeps_mirror_on_failure).
    destruct (available data); [|by left].
    rewrite (keeps_step_bind mirror)
      by (intros _; apply keeps_mirror_after_visualization).
    apply (mirror_updateVisualization_cases data
             (set_noDataOverlay _ (set_dockerAvailable _ st))).
  - by left.
  - by left.
  - rewrite ws_onmessage_guard. destruct (available data); [|by left].
    rewrite (keeps_step_bind mirror)
      by (intros _; apply keeps_mirror_after_visualization).
    apply (mirror_updateVisualization_cases data
             (set_noDataOverlay _ (set_dockerAvailable _ st))).
  - by left.
  - by left.
  - left. by destruct t.
Qed.

Lemma rendered_step ev st : rendered st -> rendered (step st ev).
Proof.
  intros [Hn He].
  destruct (mirror_step_cases ev st) as [Hm|(cs & es & Hm)];
    unfold mirror in Hm; injection Hm as Hnodes Hedges;
    unfold rendered; rewrite Hnodes, Hedges; [done|].
  split.
  - intros id n. rewrite nodes_of_lookup.
    destruct (cs !! id) as [c|]; [|done]. intros [= <-]. by exists c.
  - apply (ds_add_lookup edge_id
             (fun id e => exists conn, e = edge_of conn /\ conn_id conn = id)).
    + intros id e. by rewrite lookup_empty.
    + intros e [conn [-> _]]%list_elem_of_fmap. by exists conn.
Qed.

Lemma run_snoc evs ev st : run (evs ++ [ev]) st = step (run evs st) ev.
Proof. unfold run. by rewrite fold_left_app. Qed.

(** Whatever events have been handled since the script was evaluated, and
    whatever the payloads held, every node of the Mirror is the rendering of
    a container and is stored under its own id, as a box in the success or
    the failure palette; every edge is the rendering of a connection, stored
    under the connection's id and drawn with an arrow to its target. *)
Theorem mirror_holds_renderings_only (evs : list event) :
  let st := run evs initial in
  rendered st /\
  (forall id n, allNodes st !! id = Some n ->
     node_id n = id /\ node_shape n = "box" /\
     (node_color n = success_palette \/ node_color n = failure_palette)) /\
  (forall id e, allEdges st !! id = Some e ->
     edge_id e = id /\ edge_arrows e = "to").
Proof.
  assert (Hr : rendered (run evs initial)).
  { induction evs as [|ev evs IH] using rev_ind.
    - split; intros id x; simpl; by rewrite lookup_empty.
    - rewrite run_snoc. by apply rendered_step. }
  split; [done|]. destruct Hr as [Hn He]. split.
  - intros id n [c ->]%Hn. repeat split.
    unfold node_of; simpl. destruct (c_status c =? "running")%string; auto.
  - intros id e (conn & -> & <-)%He. done.
Qed.

(** ** The timer over runs *)

Lemma tick_step st :
  step st EvTick =
  if dockerAvailable st then set_requests (S (requests st)) st else st.
Proof.
  unfold step, handle, interval_tick, bind, gets, loadData, modify.
  by destruct (dockerAvailable st).
Qed.

(** Ticks of the timer never change [dockerAvailable], the overlay or the
    Mirror: [n] ticks in a row issue [n] pull requests when the variable is
    true and none when it is false. *)
Theorem ticks_poll_by_flag (n : nat) (st : state) :
  let st' := run (replicate n EvTick) st in
  dockerAvailable st' = dockerAvailable st /\
  requests st' = requests st + (if dockerAvailable st then n else 0) /\
  noDataOverlay st' = noDataOverlay st /\
  mirror st' = mirror st.
Proof.
  revert st. induction n as [|n IH]; intros st; simpl.
  - repeat split; try done. destruct (dockerAvailable st); lia.
  - destruct (IH (step st EvTick)) as (Hd & Hr & Ho & Hm).
    unfold run in *. rewrite Hd, Hr, Ho, Hm, tick_step.
    destruct (dockerAvailable st) eqn:Hflag; simpl; rewrite ?Hflag;
      repeat split; try done; lia.
Qed.

Lemma quiet_step ev st :
  quiet_event ev = true -> dockerAvailable st = false ->
  dockerAvailable (step st ev) = false /\ requests (step st ev) = requests st.
Proof.
  intros Hq Hflag.
  destruct ev as [| | |data| | |data| | |[]]; try discriminate; try done.
  by rewrite tick_step, Hflag.
Qed.

(** While [dockerAvailable] is false, no sequence of timer ticks, failed
    pulls, push-channel events and expired timeouts issues a pull request or
    sets the variable: only a payload can set it, and only a reload or the
    page load issues a request. *)
Theorem no_polling_until_a_payload evs st :
  dockerAvailable st = false ->
  forallb quiet_event evs = true ->
  dockerAvailable (run evs st) = false /\ requests (run evs st) = requests st.
Proof.
  revert st. induction evs as [|ev evs IH]; intros st Hflag Hq; [done|].
  simpl in Hq. apply andb_true_iff in Hq as [Hev Hq].
  destruct (quiet_step ev st Hev Hflag) as [Hflag' Hreq].
  simpl. destruct (IH (step st ev) Hflag' Hq) as [? ?]. split; [done|congruence].
Qed.

Lemma no_polling_until_a_payload_witness :
  let evs := [EvPullFailure; EvTick; EvWsClose; EvTimeout Reconnect; EvWsOpen; EvTick] in
  dockerAvailable (run evs (step initial EvLoaded)) = false /\
  requests (run evs (step initial EvLoaded)) = requests (step initial EvLoaded).
Proof.
  apply (no_polling_until_a_payload
           [EvPullFailure; EvTick; EvWsClose; EvTimeout Reconnect; EvWsOpen; EvTick]
           (step initial EvLoaded)); reflexivity.
Defined.

(** ** Timeouts and sockets over runs *)

Lemma updateVisualization_timeouts data st :
  exists l,
    timeouts (fst (updateVisualization data st)) = timeouts st ++ l /\
    (l = [] \/ l = [(500%Z, FitView)]).
Proof.
  destruct (containers data) as [cs|] eqn:Hcs;
    [destruct (connections data) as [es|] eqn:Hes|].
  - rewrite (updateVisualization_closed_form _ _ _ _ Hcs Hes). unfold reconcile.
    destruct (ds_add edge_id (edge_of <$> es) ∅) as [[eds added] [e|]]; simpl.
    + exists []. by split; [|left].
    + destruct (decide (cs = ∅)); eexists; (split; [done|]); auto.
  - rewrite updateVisualization_missing by (by right).
    exists []. simpl. by rewrite app_nil_r; split; [|left].
  - rewrite updateVisualization_missing by (by left).
    exists []. simpl. by rewrite app_nil_r; split; [|left].
Qed.

Lemma reconciliation_timeouts data st :
  exists l,
    timeouts (fst ((updateVisualization data >>
                    updateSummary (summary data) >>
                    updateContainerList (containers data) >>
                    hideNoDataOverlay) st)) = timeouts st ++ l /\
    (l = [] \/ l = [(500%Z, FitView)]).
Proof.
  rewrite (keeps_step_bind timeouts) by (intros _; by apply keeps_after_visualization).
  apply updateVisualization_timeouts.
Qed.

Lemma timeouts_step ev st :
  exists l,
    timeouts (step st ev) = timeouts st ++ l /\
    if is_close ev then l = [(5000%Z, Reconnect)]
    else l = [] \/ l = [(500%Z, FitView)].
Proof.
  assert (Hnil : forall st' : state, timeouts st' = timeouts st ->
            exists l, timeouts st' = timeouts st ++ l /\
                      (l = [] \/ l = [(500%Z, FitView)])).
  { intros st' ->. exists []. rewrite app_nil_r. by split; [|left]. }
  destruct ev as [| | |data| | |data| | |t]; cbn [is_close].
  - by apply Hnil.
  - apply Hnil. rewrite tick_step. by destruct (dockerAvailable st).
  - by apply Hnil.
  - unfold step, handle. rewrite loadData_resume_guard.
    rewrite (keeps_step_try_catch timeouts) by done.
    destruct (available data); [|by apply Hnil].
    apply (reconciliation_timeouts data
             (set_noDataOverlay _ (set_dockerAvailable _ st))).
  - by apply Hnil.
  - by apply Hnil.
  - unfold step, handle. rewrite ws_onmessage_guard.
    destruct (available data); [|by apply Hnil].
    apply (reconciliation_timeouts data
             (set_noDataOverlay _ (set_dockerAvailable _ st))).
  - by eexists.
  - by apply Hnil.
  - apply Hnil. by destruct t.
Qed.

Lemma sockets_step ev st :
  sockets (step st ev) = sockets st + (if opens_socket ev then 1 else 0).
Proof.
  assert (Hchain : forall data, keeps sockets
            (updateVisualization data >>
             updateSummary (summary data) >>
             updateContainerList (containers data) >>
             hideNoDataOverlay)).
  { intros data. apply keeps_bind.
    - intros st0. apply updateVisualization_frame.
    - intros _. by apply keeps_after_visualization. }
  destruct ev as [| | |data| | |data| | |t]; cbn [opens_socket];
    rewrite ?Nat.add_0_r.
  - simpl. lia.
  - rewrite tick_step. by destruct (dockerAvailable st).
  - done.
  - unfold step, handle. rewrite loadData_resume_guard.
    rewrite (keeps_step_try_catch sockets) by done.
    destruct (available data); [|done]. by rewrite Hchain.
  - done.
  - done.
  - unfold step, handle. rewrite ws_onmessage_guard.
    destruct (available data); [|done]. by rewrite Hchain.
  - done.
  - done.
  - destruct t; simpl; lia.
Qed.

Lemma timeouts_run evs : forall st,
  exists l,
    timeouts (run evs st) = timeouts st ++ l /\
    Forall (fun t => t = (500%Z, FitView) \/ t = (5000%Z, Reconnect)) l /\
    length (List.filter is_reconnect l) = count_events is_close evs.
Proof.
  induction evs as [|ev evs IH]; intros st.
  - exists []. simpl. by rewrite app_nil_r.
  - destruct (timeouts_step ev st) as (l1 & Hl1 & Hshape).
    destruct (IH (step st ev)) as (l2 & Hl2 & Hall & Hcount).
    exists (l1 ++ l2). simpl. fold (run evs (step st ev)).
    rewrite Hl2, Hl1, <- app_assoc. split; [done|].
    rewrite List.filter_app, length_app, Hcount. split.
    + apply Forall_app. split; [|done].
      destruct (is_close ev); [subst l1; auto|].
      destruct Hshape as [-> | ->]; auto.
    + destruct (is_close ev); [by subst l1|].
      by destruct Hshape as [-> | ->].
Qed.

(** Over any sequence of events, whatever the payloads hold, the only
    timeouts ever scheduled are a fit-to-view after 500ms and a reconnect after
    5000ms; exactly one reconnect is scheduled per close event and none by any
    other event; and a socket is constructed exactly once per page load and
    once per expired reconnect timeout. *)
Theorem one_reconnect_per_close (evs : list event) (st : state) :
  timeouts (run evs st) = timeouts st ++ scheduled_by evs st /\
  Forall (fun t => t = (500%Z, FitView) \/ t = (5000%Z, Reconnect))
    (scheduled_by evs st) /\
  length (List.filter is_reconnect (scheduled_by evs st)) = count_events is_close evs /\
  sockets (run evs st) = sockets st + count_events opens_socket evs.
Proof.
  destruct (timeouts_run evs st) as (l & Hl & Hall & Hcount).
  assert (Hsched : scheduled_by evs st = l).
  { unfold scheduled_by. by rewrite Hl, drop_app_length. }
  rewrite Hsched. repeat split; try done.
  clear. revert st. induction evs as [|ev evs IH]; intros st; simpl.
  - lia.
  - fold (run evs (step st ev)). rewrite IH, sockets_step. lia.
Qed.

(** ** The controls *)

Lemma press_physics (stringify : payload -> string) c ui :
  network ui = Some (physicsEnabled ui) ->
  network (press stringify ui c) = Some (physicsEnabled (press stringify ui c)) /\
  physicsEnabled (press stringify ui c) = xorb (physicsEnabled ui) (is_toggle c).
Proof.
  intros Hnet. destruct c as [| | |view [t|]| |[[v|]|]| |[data|]]; simpl;
    rewrite ?xorb_false_r; try done.
  unfold togglePhysics; simpl. rewrite Hnet; simpl.
  by rewrite xorb_true_r.
Qed.

Lemma presses_physics (stringify : payload -> string) cs : forall ui,
  network ui = Some (physicsEnabled ui) ->
  network (presses stringify cs ui) = Some (physicsEnabled (presses stringify cs ui)) /\
  physicsEnabled (presses stringify cs ui) =
    xorb (physicsEnabled ui) (Nat.odd (count_controls is_toggle cs)).
Proof.
  induction cs as [|c cs IH]; intros ui Hnet.
  - simpl. by rewrite xorb_false_r.
  - change (presses stringify (c :: cs) ui)
      with (presses stringify cs (press stringify ui c)).
    destruct (press_physics stringify c ui Hnet) as [Hnet' Hflip].
    destruct (IH _ Hnet') as [Hinv Hpar]. split; [done|].
    rewrite Hpar, Hflip. cbn [count_controls].
    destruct (is_toggle c); simpl.
    + rewrite Nat.odd_succ, <- Nat.negb_odd.
      by destruct (physicsEnabled ui), (Nat.odd _).
    + by rewrite xorb_false_r.
Qed.

(** Once [initNetwork] has run, after any sequence of uses of the controls
    the network's physics option equals the variable [physicsEnabled], which
    has been flipped once per [togglePhysics].  Before [initNetwork] a toggle
    flips the variable and then raises, and the network later constructed
    starts from the flipped value. *)
Theorem physics_option_tracks_variable (stringify : payload -> string)
    (cs : list control) (ui : controls) :
  let ui' := presses stringify cs (initNetwork ui) in
  network ui' = Some (physicsEnabled ui') /\
  physicsEnabled ui' =
    xorb (physicsEnabled ui) (Nat.odd (count_controls is_toggle cs)) /\
  (network ui = None ->
   snd (togglePhysics ui) = Throw TypeError /\
   physicsEnabled (fst (togglePhysics ui)) = negb (physicsEnabled ui) /\
   network (initNetwork (fst (togglePhysics ui))) = Some (negb (physicsEnabled ui))).
Proof.
  destruct (presses_physics stringify cs (initNetwork ui) eq_refl) as [Hinv Hpar].
  split; [done|]. split; [done|].
  intros Hnone. unfold togglePhysics; simpl. by rewrite Hnone.
Qed.

(** When the event's target is a view button, [setView] leaves exactly that
    one view button active; when the target is some other element, it leaves
    no view button active and gives the class to that element.  Either way
    every other view button loses the class, elements that are not view buttons
    keep theirs, and the argument [view] has no influence.  Called while no
    event is being dispatched it deactivates every view button and raises. *)
Theorem setView_activates_target_only (view t : string) (ui : controls) :
  let ui' := fst (setView view (Some t) ui) in
  snd (setView view (Some t) ui) = Done tt /\
  t ∈ active ui' /\
  (t ∈ view_btns ui ->
   active ui' ∩ view_btns ui = {[t]} /\ size (active ui' ∩ view_btns ui) = 1) /\
  (t ∉ view_btns ui -> active ui' ∩ view_btns ui = ∅) /\
  (forall b, b ∈ view_btns ui -> (b ∈ active ui' <-> b = t)) /\
  (forall x, x ∉ view_btns ui -> x <> t -> (x ∈ active ui' <-> x ∈ active ui)) /\
  (forall view', setView view' (Some t) ui = setView view (Some t) ui) /\
  snd (setView view None ui) = Throw TypeError /\
  (forall b, b ∈ view_btns ui -> b ∉ active (fst (setView view None ui))).
Proof.
  simpl.
  assert (Hin : forall x,
            x ∈ (active ui ∖ view_btns ui ∪ {[t]}) ∩ view_btns ui <->
            x = t /\ t ∈ view_btns ui).
  { intros x.
    rewrite elem_of_intersection, elem_of_union, elem_of_difference,
      elem_of_singleton.
    split; [intros [[[_ ?]| ->] ?]; tauto|intros [-> ?]; tauto]. }
  split; [done|]. split; [|split; [|split; [|split; [|split; [|split; [|split]]]]]].
  - apply elem_of_union. right. by apply elem_of_singleton.
  - intros Ht.
    assert (Heq : (active ui ∖ view_btns ui ∪ {[t]}) ∩ view_btns ui = {[t]}).
    { apply set_eq. intros x. rewrite Hin, elem_of_singleton. tauto. }
    rewrite Heq. split; [done|apply size_singleton].
  - intros Ht. apply set_eq. intros x. rewrite Hin, elem_of_empty. tauto.
  - intros b Hb.
    rewrite elem_of_union, elem_of_difference, elem_of_singleton. tauto.
  - intros x Hx Hne.
    rewrite elem_of_union, elem_of_difference, elem_of_singleton. tauto.
  - done.
  - done.
  - intros b Hb. rewrite elem_of_difference. tauto.
Qed.

Lemma press_exports (stringify : payload -> string) c ui :
  object_urls (press stringify ui c) ⊆ object_urls ui /\
  length (console_log (press stringify ui c)) =
    length (console_log ui) + (if is_export_done c then 1 else 0) /\
  exists d,
    downloads (press stringify ui c) = downloads ui ++ d /\
    Forall export_file d /\
    length d = if export_succeeds c then 1 else 0.
Proof.
  destruct c as [| | |view [t|]| |[[v|]|]| |[data|]]; simpl;
    try (unfold togglePhysics; destruct (network _));
    simpl; rewrite ?length_app; simpl.
  all: split;
    [try done; intros x;
     rewrite elem_of_difference, elem_of_union, elem_of_singleton; tauto|].
  all: split; [lia|].
  all: try (exists []; rewrite app_nil_r; by split).
  all: eexists; split; [done|]; split; [|done].
  all: apply Forall_singleton; unfold export_file; simpl; auto.
Qed.

Lemma presses_exports (stringify : payload -> string) cs : forall ui,
  object_urls (presses stringify cs ui) ⊆ object_urls ui /\
  length (console_log (presses stringify cs ui)) =
    length (console_log ui) + count_controls is_export_done cs /\
  exists d,
    downloads (presses stringify cs ui) = downloads ui ++ d /\
    Forall export_file d /\
    length d = count_controls export_succeeds cs.
Proof.
  induction cs as [|c cs IH]; intros ui.
  - simpl. split; [done|]. split; [lia|]. exists []. by rewrite app_nil_r.
  - change (presses stringify (c :: cs) ui)
      with (presses stringify cs (press stringify ui c)).
    destruct (press_exports stringify c ui) as (Hu1 & Hc1 & d1 & Hd1 & Hf1 & Hl1).
    destruct (IH (press stringify ui c)) as (Hu2 & Hc2 & d2 & Hd2 & Hf2 & Hl2).
    simpl. split; [by etrans|]. split; [lia|].
    exists (d1 ++ d2). rewrite Hd2, Hd1, <- app_assoc. split; [done|].
    split; [by apply Forall_app|]. rewrite length_app. lia.
Qed.

(** Over any sequence of uses of the controls: every export that completes,
    successfully or not, writes exactly one notification; a file is handed to
    the browser exactly for the exports that succeed, always as
    [docker-network.puml] of type [text/plain] or [docker-network.json] of type
    [application/json]; and no object URL created for a download is left
    unrevoked. *)
Theorem exports_notify_and_release (stringify : payload -> string)
    (cs : list control) (ui : controls) :
  let ui' := presses stringify cs ui in
  object_urls ui' ⊆ object_urls ui /\
  length (console_log ui') =
    length (console_log ui) + count_controls is_export_done cs /\
  length (downloads ui') =
    length (downloads ui) + count_controls export_succeeds cs /\
  Forall export_file (drop (length (downloads ui)) (downloads ui')).
Proof.
  destruct (presses_exports stringify cs ui) as (Hu & Hc & d & Hd & Hf & Hl).
  simpl. split; [done|]. split; [done|]. rewrite Hd, length_app, drop_app_length.
  split; [lia|done].
Qed.

(** ** A repeated connection id *)

Lemma ds_add_repeated {A} (key : A -> string) pre dup post : forall ds,
  NoDup (key <$> pre) ->
  (forall it, it ∈ pre -> ds !! key it = None) ->
  key dup ∈ key <$> pre \/ is_Some (ds !! key dup) ->
  ds_add key (pre ++ dup :: post) ds =
  (list_to_map (keyed key pre) ∪ ds, pre, Some (DuplicateId (key dup))).
Proof.
  induction pre as [|it pre IH]; intros ds Hnd Hfresh Hdup; simpl.
  - destruct Hdup as [Hin|[x Hx]]; [by apply elem_of_nil in Hin|].
    by rewrite Hx, (left_id_L ∅ (∪)).
  - apply NoDup_cons in Hnd as [Hnotin Hnd].
    rewrite (Hfresh it) by left.
    rewrite IH; [| done | |].
    + f_equal. f_equal.
      rewrite <- insert_union_r, insert_union_l; [done|].
      apply not_elem_of_list_to_map_1. by rewrite keyed_fst.
    + intros it' Hin. rewrite lookup_insert_ne; [apply Hfresh; by right|].
      intros Heq. apply Hnotin. rewrite Heq. by apply list_elem_of_fmap_2.
    + rewrite lookup_insert. case_decide as Hk; [right; by eexists|].
      destruct Hdup as [Hin|Hsome]; [|by right].
      apply elem_of_cons in Hin as [Heq|Hin]; [by symmetry in Heq|by left].
Qed.

(** When a connection of an available payload repeats the id of an earlier
    one, the DataSet rejects it in the middle of the reconciliation: the
    Mirror is left with all the nodes of the payload and only the edges before
    the repeat, no fit-to-view is scheduled, and the statistics and the
    container list are not updated.  The pull path reports it like a failed
    request. *)
Theorem repeated_connection_id_stops_reconciliation data cs pre dup post st :
  containers data = Some cs ->
  connections data = Some (pre ++ dup :: post) ->
  NoDup (conn_id <$> pre) -> conn_id dup ∈ conn_id <$> pre ->
  available data = true ->
  (snd (updateVisualization data st) = Throw (DuplicateId (conn_id dup)) /\
   mirror (fst (updateVisualization data st)) = (nodes_of cs, edges_of pre) /\
   timeouts (fst (updateVisualization data st)) = timeouts st) /\
  (mirror (step st (EvPullResponse data)) = (nodes_of cs, edges_of pre) /\
   statNumbers (step st (EvPullResponse data)) = statNumbers st /\
   containerList (step st (EvPullResponse data)) = containerList st /\
   noDataOverlay (step st (EvPullResponse data)) = true /\
   console (step st (EvPullResponse data)) =
     console st ++ [JStr "Ошибка подключения"]).
Proof.
  intros Hcs Hes Hnd Hdup Hav.
  assert (Hd : strict_ne_false (docker_available data) = true).
  { unfold available in Hav. by apply andb_true_iff in Hav as [? _]. }
  assert (Hadd : ds_add edge_id (edge_of <$> (pre ++ dup :: post)) ∅ =
            (edges_of pre, edge_of <$> pre, Some (DuplicateId (conn_id dup)))).
  { rewrite fmap_app, fmap_cons.
    rewrite (ds_add_repeated edge_id (edge_of <$> pre) (edge_of dup)).
    - rewrite (right_id_L ∅ (∪)). unfold edges_of, keyed.
      by rewrite <- list_fmap_compose.
    - by rewrite <- list_fmap_compose.
    - intros. apply lookup_empty.
    - left. by rewrite <- list_fmap_compose. }
  assert (Hviz : forall st0, exists st1,
            updateVisualization data st0 = (st1, Throw (DuplicateId (conn_id dup))) /\
            mirror st1 = (nodes_of cs, edges_of pre) /\
            timeouts st1 = timeouts st0 /\
            statNumbers st1 = statNumbers st0 /\
            containerList st1 = containerList st0 /\
            console st1 = console st0).
  { intros st0. eexists. split.
    - rewrite (updateVisualization_closed_form _ _ _ _ Hcs Hes).
      unfold reconcile. by rewrite Hadd.
    - cbn. by rewrite app_nil_r. }
  split.
  - destruct (Hviz st) as (st1 & Heq & Hm & Ht & _). by rewrite Heq.
  - unfold step, handle. rewrite loadData_resume_guard, Hav, Hd.
    change (negb true) with false.
    destruct (Hviz (set_noDataOverlay false (set_dockerAvailable true st)))
      as (st1 & Heq & Hm & _ & Hs & Hl & Hc).
    assert (Hchain :
      (updateVisualization data >>
       updateSummary (summary data) >>
       updateContainerList (containers data) >>
       hideNoDataOverlay) (set_noDataOverlay false (set_dockerAvailable true st)) =
      (st1, Throw (DuplicateId (conn_id dup)))).
    { unfold bind at 1. by rewrite Heq. }
    unfold try_catch. rewrite Hchain. cbn.
    rewrite Hc, Hs, Hl. repeat split; done.
Qed.

Lemma repeated_connection_id_stops_reconciliation_witness :
  let data := mkPayload (JBool true) JNull (Some ex_containers)
                (Some ([ex_link] ++ ex_link :: [])) (Some ex_summary) in
  (snd (updateVisualization data initial) = Throw (DuplicateId (conn_id ex_link)) /\
   mirror (fst (updateVisualization data initial)) =
     (nodes_of ex_containers, edges_of [ex_link]) /\
   timeouts (fst (updateVisualization data initial)) = timeouts initial) /\
  (mirror (step initial (EvPullResponse data)) =
     (nodes_of ex_containers, edges_of [ex_link]) /\
   statNumbers (step initial (EvPullResponse data)) = statNumbers initial /\
   containerList (step initial (EvPullResponse data)) = containerList initial /\
   noDataOverlay (step initial (EvPullResponse data)) = true /\
   console (step initial (EvPullResponse data)) =
     console initial ++ [JStr "Ошибка подключения"]).
Proof.
  apply (repeated_connection_id_stops_reconciliation
           (mkPayload (JBool true) JNull (Some ex_containers)
              (Some ([ex_link] ++ ex_link :: [])) (Some ex_summary))
           ex_containers [ex_link] ex_link [] initial).
  - reflexivity.
  - reflexivity.
  - refine (bool_decide_unpack _ _). vm_compute. exact I.
  - refine (bool_decide_unpack _ _). vm_compute. exact I.
  - reflexivity.
Defined.
